(** * The SSO authentication service: [internal/services/auth] and [internal/lib]

  A shallow embedding of the Go sources

  - [internal/lib/jwt.go]            (function [NewToken]),
  - [internal/services/auth/auth.go] (methods [Login], [RegisterNewUser], [isAdmin]),

  together with the part of their environment that they observe:
  Go's [errors]/[fmt.Errorf] wrapping discipline, [log/slog] records, the
  wall clock, [bcrypt], the [golang-jwt] signer and the storage
  collaborators behind the three interfaces of the service. *)

From Stdlib Require Import ZArith String List Lia.
From stdpp Require Import base option strings gmap pretty.

Local Open Scope string_scope.
Local Open Scope Z_scope.

Abbreviation bytes := (list Byte.byte).

#[global] Instance byte_eq_dec : EqDecision Byte.byte.
Proof.
  intros x y. destruct (Byte.eqb x y) eqn:E.
  - left. apply Byte.byte_dec_bl. exact E.
  - right. intros ->. rewrite Byte.byte_dec_lb in E by reflexivity. discriminate.
Defined.

(** [[]byte(s)] for a Go string [s]. *)
Definition bytes_of (s : string) : bytes := String.list_byte_of_string s.

(* ===================================================================== *)
(** ** Go errors: [errors.New], [fmt.Errorf("%s: %w", ...)], [errors.Is]   *)
(* ===================================================================== *)

Module errors.

(** An error value is a chain: a leaf (the [*errorString] made by
    [errors.New], or any other leaf error of a collaborator) under zero or
    more [*fmt.wrapError] layers.  A leaf is compared by identity in Go;
    [ptr] is that identity (for a package-level sentinel, the qualified name
    of the variable that holds it), [s] is the text [Error()] prints. *)
Inductive error : Type :=
| errorString (ptr : string) (s : string)
| wrapError (msg : string) (err : error).

Definition New (ptr text : string) : error := errorString ptr text.

Definition Error (e : error) : string :=
  match e with
  | errorString _ s => s
  | wrapError msg _ => msg
  end.

Definition Unwrap (e : error) : option error :=
  match e with
  | errorString _ _ => None
  | wrapError _ err => Some err
  end.

(** Go's [err == target] for a [target] that exists before [err] was built:
    a freshly allocated [*wrapError] is identical to no such target, two
    leaves are identical when they are the same object. *)
Definition same (e target : error) : bool :=
  match e, target with
  | errorString p _, errorString q _ => bool_decide (p = q)
  | _, _ => false
  end.

(** [errors.Is]: walk the [Unwrap] chain, comparing each layer. *)
Fixpoint Is (err target : error) : bool :=
  same err target ||
  match err with
  | errorString _ _ => false
  | wrapError _ inner => Is inner target
  end.

(** The leaf at the bottom of the chain. *)
Fixpoint cause (e : error) : error :=
  match e with
  | errorString _ _ => e
  | wrapError _ inner => cause inner
  end.

End errors.
Export errors(error, errorString, wrapError).

Module fmt.
(** [fmt.Errorf("%s: %w", op, err)]. *)
Definition Errorf_w (op : string) (err : error) : error :=
  wrapError (op +:+ ": " +:+ errors.Error err) err.

(** [fmt.Sprint] of an [int64]. *)
Definition Sprint (n : Z) : string := pretty n.
End fmt.

(* ===================================================================== *)
(** ** [sso/internal/domain/models] and [sso/internal/storage]            *)
(* ===================================================================== *)

Module models.
(** Modelled from the spec: the declaration of [models.User] is not among
    the sources.  Section 3 gives a user an integer id, a unique login
    name/email and a password hash (an opaque byte sequence); the field
    names are the ones [auth.go] and [jwt.go] select. *)
Record User := { Id : Z; Name : string; PassHash : bytes }.

(** Modelled from the spec: the declaration of [models.App] is not among
    the sources.  Section 3 gives a tenant application an integer id and a
    secret key used to sign the tokens issued on its behalf.  [AppId] is the
    field [Id] of the Go struct. *)
Record App := { AppId : Z; Secret : string }.
End models.

Module storage.
(* The sentinel errors of the storage package are not among the sources.
   Section 6 asks the stores to signal "not found" and "already exists"
   distinguishably; each sentinel is a package-level [errors.New] value of
   its own.  Only its identity is observed by the service; the texts stand
   for whatever the package prints. *)

(** Modelled from the spec: [storage.ErrUserNotFound], the "not found"
    signal of the user store reader (section 6). *)
Definition ErrUserNotFound : error := errors.New "storage.ErrUserNotFound" "user not found".

(** Modelled from the spec: [storage.ErrAppNotFound], the "not found" signal
    of the application store reader (section 6). *)
Definition ErrAppNotFound : error := errors.New "storage.ErrAppNotFound" "app not found".

(** Modelled from the spec: [storage.ErrUserExists], the "already exists"
    signal of the user store writer (section 6). *)
Definition ErrUserExists : error := errors.New "storage.ErrUserExists" "user already exists".
End storage.

(* ===================================================================== *)
(** ** [time]                                                              *)
(* ===================================================================== *)

Module time.
(** An instant, as nanoseconds since the Unix epoch; a [Duration] is a
    count of nanoseconds.  (Go saturates instants some 292 billion years
    away from the epoch; that range is left unbounded here.) *)
Definition Time := Z.
Definition Duration := Z.

Definition Second : Duration := 1000000000.

Definition Add (t : Time) (d : Duration) : Time := t + d.

(** [t.Unix()]: whole seconds since the epoch, rounded down. *)
Definition Unix (t : Time) : Z := t / Second.
End time.

(* ===================================================================== *)
(** ** [log/slog]                                                          *)
(* ===================================================================== *)

Module slog.
Inductive Level := LevelInfo | LevelWarn | LevelError.

(** [slog.String(key, value)] and [slog.Attr{Key, slog.StringValue(..)}]. *)
Definition Attr : Type := string * string.

Record Record_ := { level : Level; message : string; attrs : list Attr }.

(** A logger is the list of attributes it was built [With]; what it emits
    goes to the sink of the surrounding world. *)
Record Logger := { with_attrs : list Attr }.

Definition With (l : Logger) (args : list Attr) : Logger :=
  {| with_attrs := with_attrs l ++ args |}.

Definition emit (l : Logger) (lv : Level) (msg : string) (args : list Attr) : Record_ :=
  {| level := lv; message := msg; attrs := with_attrs l ++ args |}.
End slog.

(* ===================================================================== *)
(** ** [github.com/golang-jwt/jwt]: tokens, claims and the HMAC signer     *)
(* ===================================================================== *)

Module jwt.

Inductive SigningMethod :=
| SigningMethodHS256 | SigningMethodHS384 | SigningMethodHS512
| SigningMethodRS256 | SigningMethodES256.

Definition Alg (m : SigningMethod) : string :=
  match m with
  | SigningMethodHS256 => "HS256"
  | SigningMethodHS384 => "HS384"
  | SigningMethodHS512 => "HS512"
  | SigningMethodRS256 => "RS256"
  | SigningMethodES256 => "ES256"
  end.

(** The HMAC family signs and verifies with one shared secret. *)
Definition symmetric (m : SigningMethod) : bool :=
  match m with
  | SigningMethodHS256 | SigningMethodHS384 | SigningMethodHS512 => true
  | SigningMethodRS256 | SigningMethodES256 => false
  end.

(** The values [NewToken] stores behind [interface{}]: integers and
    strings. *)
Inductive value := Int (n : Z) | Str (s : string).

(** [jwt.MapClaims], a [map[string]interface{}]. *)
Abbreviation MapClaims := (gmap string value).

Record Token := { Method : SigningMethod; Header : gmap string value; Claims : MapClaims }.

(** [jwt.New(method)] = [NewWithClaims(method, MapClaims{})]. *)
Definition New (method : SigningMethod) : Token :=
  {| Method := method;
     Header := <["alg" := Str (Alg method)]> (<["typ" := Str "JWT"]> ∅);
     Claims := ∅ |}.

(** The key handed to [SignedString] as [interface{}]: a byte slice, or a
    value of another dynamic type (a Go string, say). *)
Inductive Key := KeyBytes (k : bytes) | KeyString (k : string).

Definition ErrInvalidKey : error := errors.New "jwt.ErrInvalidKey" "key is invalid".
Definition ErrInvalidKeyType : error := errors.New "jwt.ErrInvalidKeyType" "key is of invalid type".

(** The signer of the library, over the three primitives it is built from:
    JSON marshalling of a string-keyed map of integers and strings, unpadded
    base64url and the keyed hash.  All three are total on these types.  A
    method of the HMAC family signs with a byte-slice key and refuses a key of
    any other type; the RSA and ECDSA methods refuse both kinds of key
    modelled here.  (The library also refuses a hash function that is not
    linked into the binary; it links SHA-2 through its own imports, so that
    branch is left out.) *)
Section Signer.
Variable jsonMarshal : gmap string value -> bytes.
Variable EncodeSegment : bytes -> string.
Variable hmacSum : SigningMethod -> bytes -> bytes -> bytes.

Definition SigningString (t : Token) : string :=
  EncodeSegment (jsonMarshal (Header t)) +:+ "." +:+ EncodeSegment (jsonMarshal (Claims t)).

Definition Sign (m : SigningMethod) (signingString : string) (key : Key) : string * option error :=
  match m, key with
  | (SigningMethodHS256 | SigningMethodHS384 | SigningMethodHS512), KeyBytes keyBytes =>
      (EncodeSegment (hmacSum m keyBytes (bytes_of signingString)), None)
  | (SigningMethodHS256 | SigningMethodHS384 | SigningMethodHS512), KeyString _ =>
      ("", Some ErrInvalidKeyType)
  | SigningMethodRS256, _ => ("", Some ErrInvalidKey)
  | SigningMethodES256, _ => ("", Some ErrInvalidKeyType)
  end.

Definition SignedString (t : Token) (key : Key) : string * option error :=
  let sstr := SigningString t in
  match Sign (Method t) sstr key with
  | (_, Some err) => ("", Some err)
  | (sig, None) => (sstr +:+ "." +:+ sig, None)
  end.
End Signer.

End jwt.

Module bcrypt.
Definition DefaultCost : Z := 10.
End bcrypt.

(* ===================================================================== *)
(** ** The world around a call, and the monad the operations run in       *)
(* ===================================================================== *)

(** A call either returns or panics (a nil pointer dereference). *)
Inductive outcome (A : Type) : Type :=
| Return (a : A)
| Panic (msg : string).
Arguments Return {A} a.
Arguments Panic {A} msg.

Definition nil_dereference : string :=
  "runtime error: invalid memory address or nil pointer dereference".

(** What an operation can observe and change outside itself: the state
    [store] behind the storage collaborators, the wall clock read by
    [time.Now], the bytes [crypto/rand] hands to [bcrypt], and the records
    emitted through the injected logger. *)
Record World (Σ : Type) := mkWorld {
  store : Σ;
  clock : time.Time;
  entropy : bytes;
  sink : list slog.Record_
}.
Arguments mkWorld {Σ}.
Arguments store {Σ}.
Arguments clock {Σ}.
Arguments entropy {Σ}.
Arguments sink {Σ}.

Definition M (Σ A : Type) : Type := World Σ -> outcome A * World Σ.

Definition ret {Σ A} (a : A) : M Σ A := fun w => (Return a, w).

Definition bind {Σ A B} (m : M Σ A) (k : A -> M Σ B) : M Σ B :=
  fun w =>
    match m w with
    | (Return a, w') => k a w'
    | (Panic msg, w') => (Panic msg, w')
    end.

Notation "'let*' x ':=' m 'in' k" := (bind m (fun x => k))
  (at level 10, x name, m at level 100, k at level 200, only parsing).
Notation "'let*' ' pat ':=' m 'in' k" := (bind m (fun x => match x with pat => k end))
  (at level 10, pat pattern, m at level 100, k at level 200, only parsing).

(** A call into a storage collaborator: it answers and may change the store. *)
Definition call {Σ A} (f : Σ -> A * Σ) : M Σ A :=
  fun w =>
    let '(a, σ) := f (store w) in
    (Return a, mkWorld σ (clock w) (entropy w) (sink w)).

(** Selecting a field through a pointer. *)
Definition deref {Σ A} (p : option A) : M Σ A :=
  fun w =>
    match p with
    | Some a => (Return a, w)
    | None => (Panic nil_dereference, w)
    end.

(** [time.Now()]. *)
Definition Now {Σ} : M Σ time.Time := fun w => (Return (clock w), w).

(** The bytes of [crypto/rand] that salt the next hash. *)
Definition rand {Σ} : M Σ bytes := fun w => (Return (entropy w), w).

(** [log.Info], [log.Warn], [log.Error]: one record appended to the sink. *)
Definition logAt {Σ} (lv : slog.Level) (l : slog.Logger) (msg : string)
    (args : list slog.Attr) : M Σ unit :=
  fun w =>
    (Return tt, mkWorld (store w) (clock w) (entropy w) (sink w ++ [slog.emit l lv msg args])).

Definition Info {Σ} := @logAt Σ slog.LevelInfo.
Definition Warn {Σ} := @logAt Σ slog.LevelWarn.
Definition Error_ {Σ} := @logAt Σ slog.LevelError.

(* ===================================================================== *)
(** ** [internal/services/auth]: the collaborators and the service        *)
(* ===================================================================== *)

Section Service.

(** The state behind the storage collaborators and the [context.Context]
    handed through to them. *)
Context {Σ Ctx : Type}.

Record UserSaver := {
  SaveUser : Ctx -> string -> bytes -> Σ -> (Z * option error) * Σ
}.

Record UserProvider := {
  User : Ctx -> string -> Σ -> (option models.User * option error) * Σ;
  IsAdmin : Ctx -> Z -> Σ -> (bool * option error) * Σ
}.

Record AppProvider := {
  App : Ctx -> Z -> Σ -> (option models.App * option error) * Σ
}.

Record Auth := {
  log : slog.Logger;
  userSaver : UserSaver;
  userProvider : UserProvider;
  appProvider : AppProvider;
  tokenTTL : time.Duration
}.

(** [New] returns a new instance of the Auth service. *)
Definition New (log : slog.Logger) (userSaver : UserSaver) (userProvider : UserProvider)
    (appProvider : AppProvider) (tokenTTL : time.Duration) : Auth :=
  {| log := log;
     userSaver := userSaver;
     userProvider := userProvider;
     appProvider := appProvider;
     tokenTTL := tokenTTL |}.

Definition ErrInvalidCredentials : error := errors.New "auth.ErrInvalidCredentials" "invalID credentials".
Definition ErrInvalidAppID : error := errors.New "auth.ErrInvalidAppID" "invalid appID".
Definition ErrUserExists : error := errors.New "auth.ErrUserExists" "user already exists".

(** The library routines the service calls directly: the two of [bcrypt]
    ([GenerateFromPassword] draws its salt from the entropy it is given) and
    the [SignedString] method of a [jwt.Token]. *)
Variable CompareHashAndPassword : bytes -> bytes -> option error.
Variable GenerateFromPassword : bytes -> bytes -> Z -> bytes * option error.
Variable SignedString : jwt.Token -> jwt.Key -> string * option error.

(** [internal/lib/jwt.go]: [NewToken].  [claims] aliases the map inside
    [token], so the four stores are stores into [token.Claims]. *)
Definition NewToken (user : option models.User) (app : option models.App)
    (duration : time.Duration) : M Σ (string * option error) :=
  let token := jwt.New jwt.SigningMethodHS256 in
  let claims := jwt.Claims token in
  let* u := deref user in
  let claims := <["userId" := jwt.Int (models.Id u)]> claims in
  let claims := <["email" := jwt.Str (models.Name u)]> claims in
  let* now := Now in
  let claims := <["exp" := jwt.Int (time.Unix (time.Add now duration))]> claims in
  let* a := deref app in
  let claims := <["app_id" := jwt.Int (models.AppId a)]> claims in
  let token := {| jwt.Method := jwt.Method token; jwt.Header := jwt.Header token;
                  jwt.Claims := claims |} in
  match SignedString token (jwt.KeyBytes (bytes_of (models.Secret a))) with
  | (_, Some err) => ret ("", Some err)
  | (tokenString, None) => ret (tokenString, None)
  end.

Definition Login (auth : Auth) (ctx : Ctx) (email : string) (password : bytes)
    (appID : Z) : M Σ (string * option error) :=
  let op := "auth.Login" in
  let log := slog.With (log auth) [("op", op); ("email", email)] in
  let* '(user, err) := call (User (userProvider auth) ctx email) in
  match err with
  | Some err =>
      if errors.Is err storage.ErrUserNotFound then
        let* _ := Warn log "user not found" [("error", errors.Error err)] in
        ret ("", Some (fmt.Errorf_w op ErrInvalidAppID))
      else
        let* _ := Error_ log "failed to get user" [("error", errors.Error err)] in
        ret ("", Some (fmt.Errorf_w op err))
  | None =>
      let* u := deref user in
      match CompareHashAndPassword (models.PassHash u) password with
      | Some _ => ret ("", Some (fmt.Errorf_w op ErrInvalidCredentials))
      | None =>
          let* '(app, err) := call (App (appProvider auth) ctx appID) in
          match err with
          | Some err =>
              let* _ := Error_ log "failed to get app" [("error", errors.Error err)] in
              ret ("", Some (fmt.Errorf_w op storage.ErrAppNotFound))
          | None =>
              let* '(token, err) := NewToken user app (tokenTTL auth) in
              match err with
              | Some err =>
                  let* _ := Error_ log "failed to create token" [("error", errors.Error err)] in
                  ret ("", Some (fmt.Errorf_w op err))
              | None => ret (token, None)
              end
          end
      end
  end.

Definition RegisterNewUser (auth : Auth) (ctx : Ctx) (email : string)
    (password : string) : M Σ (Z * option error) :=
  let op := "auth.RegisterNewUser" in
  let log := slog.With (log auth) [("op", op); ("email", email)] in
  let* _ := Info log "registering new user" [] in
  let* salt := rand in
  let '(passHash, err) := GenerateFromPassword salt (bytes_of password) bcrypt.DefaultCost in
  match err with
  | Some err =>
      let* _ := Error_ log "failed to generate password hash" [("error", errors.Error err)] in
      ret (0, Some (fmt.Errorf_w op err))
  | None =>
      let* '(userId, err) := call (SaveUser (userSaver auth) ctx email passHash) in
      match err with
      | Some err =>
          if errors.Is err storage.ErrUserExists then
            let* _ := Warn log "user already exists" [("error", errors.Error err)] in
            ret (0, Some ErrUserExists)
          else
            ret (0, Some (fmt.Errorf_w op err))
      | None => ret (userId, None)
      end
  end.

Definition isAdmin (auth : Auth) (ctx : Ctx) (userID : Z) : M Σ (bool * option error) :=
  let op := "auth.IsAdmin" in
  let log := slog.With (log auth) [("op", op); ("userID", fmt.Sprint userID)] in
  let* _ := Info log "checking user is admin" [] in
  let* '(isAdmin, err) := call (IsAdmin (userProvider auth) ctx userID) in
  match err with
  | Some err =>
      let* _ := Error_ log "failed to identify if user is admin" [("error", errors.Error err)] in
      if errors.Is err storage.ErrUserNotFound then
        let* _ := Warn log "user not found" [("error", errors.Error err)] in
        ret (false, Some (fmt.Errorf_w op ErrInvalidAppID))
      else
        ret (false, Some (fmt.Errorf_w op err))
  | None => ret (isAdmin, None)
  end.

End Service.

Arguments UserSaver : clear implicits.
Arguments UserProvider : clear implicits.
Arguments AppProvider : clear implicits.
Arguments Auth : clear implicits.

(* ===================================================================== *)
(** ** Classification of errors                                            *)
(* ===================================================================== *)

(** The sentinel kinds a caller can test an error against. *)
Definition sentinels : list error :=
  [ ErrInvalidCredentials; ErrInvalidAppID; ErrUserExists;
    storage.ErrUserNotFound; storage.ErrAppNotFound; storage.ErrUserExists ].

(** What the classification checks [errors.Is(err, sentinel)] answer for an
    error, sentinel by sentinel. *)
Definition classification (e : error) : list bool :=
  map (errors.Is e) sentinels.

(** An error carries the context of operation [op] when it is the
    [fmt.Errorf("%s: %w", op, cause)] of some cause. *)
Definition wrapped_with (op : string) (e : error) : Prop :=
  exists inner, e = fmt.Errorf_w op inner.

(** The token [NewToken] hands to the signer for a user, an application and
    an expiry in Unix seconds. *)
Definition token_of (user : models.User) (app : models.App) (exp : Z) : jwt.Token :=
  {| jwt.Method := jwt.SigningMethodHS256;
     jwt.Header := jwt.Header (jwt.New jwt.SigningMethodHS256);
     jwt.Claims :=
       <["app_id" := jwt.Int (models.AppId app)]>
         (<["exp" := jwt.Int exp]>
           (<["email" := jwt.Str (models.Name user)]>
             (<["userId" := jwt.Int (models.Id user)]> ∅))) |}.

(** What [NewToken] returns for a signer, a user, an application and an
    expiry: the token of the signer, or the empty string beside its error. *)
Definition signed_by (sign : jwt.Token -> jwt.Key -> string * option error)
    (user : models.User) (app : models.App) (exp : Z) : string * option error :=
  match sign (token_of user app exp) (jwt.KeyBytes (bytes_of (models.Secret app))) with
  | (_, Some err) => ("", Some err)
  | (tokenString, None) => (tokenString, None)
  end.

(** An error wrapped by the operations [ops], outermost first. *)
Definition wrap_all (ops : list string) (e : error) : error :=
  fold_right fmt.Errorf_w e ops.

(* ===================================================================== *)
(** ** Stand-ins for the collaborators and libraries, to run the service   *)
(* ===================================================================== *)

Module bcrypt_double.
(** The two errors of [bcrypt.CompareHashAndPassword] that the stand-in
    reports: a password that does not match, and a hash too short to be one. *)
Definition ErrMismatchedHashAndPassword : error :=
  errors.New "bcrypt.ErrMismatchedHashAndPassword"
             "crypto/bcrypt: hashedPassword is not the hash of the given password".
Definition ErrHashTooShort : error :=
  errors.New "bcrypt.ErrHashTooShort"
             "crypto/bcrypt: hashedSecret too short to be a bcrypted password".

(** A stand-in for bcrypt with the same interface: the hash is the salt
    followed by the password. *)
Definition GenerateFromPassword (salt password : bytes) (cost : Z) : bytes * option error :=
  ((firstn 2 salt ++ password)%list, None).

Definition CompareHashAndPassword (hashedPassword password : bytes) : option error :=
  if (length hashedPassword <? 2)%nat then Some ErrHashTooShort
  else if bool_decide (skipn 2 hashedPassword = password) then None
  else Some ErrMismatchedHashAndPassword.
End bcrypt_double.

Module jwt_double.
(** Stand-ins for the three primitives of the signer: the claims printed
    entry by entry as the map lists them, the identity as segment encoding, key followed
    by message as keyed hash. *)
Definition print_value (v : jwt.value) : string :=
  match v with
  | jwt.Int n => pretty n
  | jwt.Str s => s
  end.

Definition jsonMarshal (m : gmap string jwt.value) : bytes :=
  bytes_of (fold_right (fun kv acc => kv.1 +:+ "=" +:+ print_value kv.2 +:+ ";" +:+ acc)
                       "" (map_to_list m)).

Definition EncodeSegment (b : bytes) : string := String.string_of_list_byte b.

Definition hmacSum (m : jwt.SigningMethod) (key msg : bytes) : bytes := (key ++ msg)%list.

Definition SignedString : jwt.Token -> jwt.Key -> string * option error :=
  jwt.SignedString jsonMarshal EncodeSegment hmacSum.

(** A signer that always fails, to drive the signing-failure branch. *)
Definition failing : jwt.Token -> jwt.Key -> string * option error :=
  fun _ _ => ("", Some jwt.ErrInvalidKey).
End jwt_double.

Module memstore.
(** Modelled from the spec: an in-memory storage layer with the contracts
    of section 6.  The storage package is not among the sources; this one
    keeps users, the ids of the administrators and the applications in
    lists, assigns ids in order of registration, and signals "already
    exists" and "not found" with the storage sentinels. *)
Record Db := mkDb {
  users : list models.User;
  admins : list Z;
  apps : list models.App
}.

Definition find_user (email : string) (db : Db) : option models.User :=
  List.find (fun u => bool_decide (models.Name u = email)) (users db).

Definition find_user_by_id (id : Z) (db : Db) : option models.User :=
  List.find (fun u => bool_decide (models.Id u = id)) (users db).

Definition find_app (id : Z) (db : Db) : option models.App :=
  List.find (fun a => bool_decide (models.AppId a = id)) (apps db).

Definition SaveUser (ctx : unit) (email : string) (passHash : bytes) (db : Db)
    : (Z * option error) * Db :=
  match find_user email db with
  | Some _ => ((0, Some storage.ErrUserExists), db)
  | None =>
      let id := Z.of_nat (length (users db)) + 1 in
      ((id, None),
       mkDb (users db ++ [ {| models.Id := id; models.Name := email; models.PassHash := passHash |} ])%list
            (admins db) (apps db))
  end.

Definition User (ctx : unit) (email : string) (db : Db)
    : (option models.User * option error) * Db :=
  match find_user email db with
  | Some u => ((Some u, None), db)
  | None => ((None, Some storage.ErrUserNotFound), db)
  end.

Definition IsAdmin (ctx : unit) (userID : Z) (db : Db) : (bool * option error) * Db :=
  match find_user_by_id userID db with
  | Some _ => ((bool_decide (userID ∈ admins db), None), db)
  | None => ((false, Some storage.ErrUserNotFound), db)
  end.

Definition App (ctx : unit) (appID : Z) (db : Db)
    : (option models.App * option error) * Db :=
  match find_app appID db with
  | Some a => ((Some a, None), db)
  | None => ((None, Some storage.ErrAppNotFound), db)
  end.

(** The hash stored for a login name, if any. *)
Definition stored_hash (db : Db) (email : string) : option bytes :=
  models.PassHash <$> find_user email db.

Definition auth (ttl : time.Duration) : Auth Db unit :=
  New {| slog.with_attrs := [] |}
      (Build_UserSaver SaveUser)
      (Build_UserProvider User IsAdmin)
      (Build_AppProvider App)
      ttl.

(** One registered user (password "pw", salt "s1"), who is an
    administrator, and one application. *)
Definition alice : models.User :=
  {| models.Id := 1; models.Name := "alice@example.com";
     models.PassHash := bytes_of "s1pw" |}.

Definition portal : models.App := {| models.AppId := 7; models.Secret := "k" |}.

Definition db0 : Db := mkDb [alice] [1] [portal].

Definition world0 : World Db :=
  mkWorld db0 1700000000500000000 (bytes_of "s2") [].

Definition hour : time.Duration := 3600 * time.Second.
End memstore.

Abbreviation login0 :=
  (Login bcrypt_double.CompareHashAndPassword jwt_double.SignedString
         (memstore.auth memstore.hour) tt).
Abbreviation register0 :=
  (RegisterNewUser bcrypt_double.GenerateFromPassword (memstore.auth memstore.hour) tt).
Abbreviation auth0 := (memstore.auth memstore.hour).
Abbreviation world0 := memstore.world0.
Abbreviation db0 := memstore.db0.
Abbreviation alice := memstore.alice.
Abbreviation portal := memstore.portal.

(** A user provider whose backend wraps its sentinel with its own operation
    name, one that breaks its contract and answers a nil user with a nil
    error, and an application provider that does the same. *)
Definition wrapping_provider : UserProvider memstore.Db unit :=
  Build_UserProvider
    (fun _ _ db => ((None, Some (fmt.Errorf_w "storage.sqlite.User" storage.ErrUserNotFound)), db))
    (fun _ _ db => ((false, Some (fmt.Errorf_w "storage.sqlite.IsAdmin" storage.ErrUserNotFound)), db)).

Definition nil_user_provider : UserProvider memstore.Db unit :=
  Build_UserProvider (fun _ _ db => ((None, None), db)) (fun _ _ db => ((false, None), db)).

Definition nil_app_provider : AppProvider memstore.Db unit :=
  Build_AppProvider (fun _ _ db => ((None, None), db)).


(** The user a registration of bob with password "hunter2" stores in [db0],
    and the store it leaves. *)
Definition bob : models.User :=
  {| models.Id := 2; models.Name := "bob@example.com";
     models.PassHash := bytes_of "s2hunter2" |}.

Definition db1 : memstore.Db :=
  memstore.mkDb [memstore.alice; bob] [1] [memstore.portal].

Definition with_providers (up : UserProvider memstore.Db unit)
    (ap : AppProvider memstore.Db unit) : Auth memstore.Db unit :=
  New (log (memstore.auth memstore.hour)) (userSaver (memstore.auth memstore.hour))
      up ap memstore.hour.

(* ===================================================================== *)
(** ** Running the operations                                              *)
(* ===================================================================== *)

Ltac run :=
  unfold Login, RegisterNewUser, isAdmin, NewToken, bind, call, deref, ret,
    Now, rand, Info, Warn, Error_, logAt; simpl.

Ltac cases :=
  repeat match goal with
  | H : context [match ?x with _ => _ end] |- _ => destruct x eqn:?; simpl in H
  | H : (_, _) = (_, _) |- _ => inversion H; subst; clear H
  end.

(* ===================================================================== *)
(** ** Facts about errors                                                  *)
(* ===================================================================== *)

Lemma Is_Errorf_w (op : string) (e target : error) :
  errors.Is (fmt.Errorf_w op e) target = errors.Is e target.
Proof. reflexivity. Qed.

Lemma classification_Errorf_w (op : string) (e : error) :
  classification (fmt.Errorf_w op e) = classification e.
Proof. reflexivity. Qed.

Lemma Unwrap_Errorf_w (op : string) (e : error) :
  errors.Unwrap (fmt.Errorf_w op e) = Some e.
Proof. reflexivity. Qed.

Lemma Is_leaf (p s : string) (target : error) :
  errors.Is (errorString p s) target = errors.same (errorString p s) target.
Proof. simpl. apply orb_false_r. Qed.

Lemma Is_cause (e target : error) :
  errors.Is e target = errors.same (errors.cause e) target.
Proof.
  induction e as [p s | msg inner IH].
  - apply Is_leaf.
  - simpl. exact IH.
Qed.

Lemma same_leaf_inv (e : error) (q t : string) :
  errors.same e (errorString q t) = true -> exists s, e = errorString q s.
Proof.
  destruct e as [p s | msg inner]; simpl; [| discriminate].
  intros H. apply bool_decide_eq_true in H. subst p. eauto.
Qed.

Lemma Error_Errorf_w (op : string) (e : error) :
  errors.Error (fmt.Errorf_w op e) = op +:+ ": " +:+ errors.Error e.
Proof. reflexivity. Qed.

Lemma Unix_bounds (t : time.Time) :
  time.Unix t * time.Second <= t < (time.Unix t + 1) * time.Second.
Proof.
  unfold time.Unix, time.Second.
  pose proof (Z.div_mod t 1000000000 ltac:(lia)) as Hdm.
  pose proof (Z.mod_pos_bound t 1000000000 ltac:(lia)) as Hm.
  lia.
Qed.


(** The claim set [NewToken] stores into a fresh token. *)
Lemma four_claims (user : models.User) (app : models.App) (exp : Z) :
  let claims : jwt.MapClaims :=
    <["app_id" := jwt.Int (models.AppId app)]>
      (<["exp" := jwt.Int exp]>
        (<["email" := jwt.Str (models.Name user)]>
          (<["userId" := jwt.Int (models.Id user)]> ∅))) in
  claims !! "userId" = Some (jwt.Int (models.Id user)) ∧
  claims !! "email" = Some (jwt.Str (models.Name user)) ∧
  claims !! "app_id" = Some (jwt.Int (models.AppId app)) ∧
  claims !! "exp" = Some (jwt.Int exp) ∧
  dom claims = ({[ "userId"; "email"; "app_id"; "exp" ]} : gset string) ∧
  size claims = 4%nat.
Proof.
  intros claims. unfold claims.
  split_and!.
  - by simplify_map_eq.
  - by simplify_map_eq.
  - by simplify_map_eq.
  - by simplify_map_eq.
  - rewrite !dom_insert_L, dom_empty_L. set_solver.
  - rewrite !map_size_insert_None, map_size_empty; [done | by simplify_map_eq ..].
Qed.

(** The HMAC signer accepts every byte-slice key: signing with a method of
    the HMAC family never fails. *)
Lemma SignedString_hmac_total
    (jsonMarshal : gmap string jwt.value -> bytes) (EncodeSegment : bytes -> string)
    (hmacSum : jwt.SigningMethod -> bytes -> bytes -> bytes)
    (t : jwt.Token) (key : bytes) :
  jwt.symmetric (jwt.Method t) = true ->
  exists s, jwt.SignedString jsonMarshal EncodeSegment hmacSum t (jwt.KeyBytes key) = (s, None).
Proof.
  intros Hsym. unfold jwt.SignedString, jwt.Sign.
  destruct (jwt.Method t); try discriminate Hsym; eauto.
Qed.

(** With any signer at all, a login that gets past the three checks hands
    [token_of] the resolved user and application to the signer, keyed with
    the secret of the application, and returns the signer's token, or its
    error wrapped with the operation name. *)
Lemma Login_returns_what_the_signer_returns {Σ Ctx : Type}
    (CompareHashAndPassword : bytes -> bytes -> option error)
    (sign : jwt.Token -> jwt.Key -> string * option error)
    (auth : Auth Σ Ctx) (ctx : Ctx) (email : string) (password : bytes) (appID : Z)
    (w : World Σ) (user : models.User) (app : models.App) (σ1 σ2 : Σ) :
  User (userProvider auth) ctx email (store w) = ((Some user, None), σ1) ->
  CompareHashAndPassword (models.PassHash user) password = None ->
  App (appProvider auth) ctx appID σ1 = ((Some app, None), σ2) ->
  fst (Login CompareHashAndPassword sign auth ctx email password appID w)
  = match sign (token_of user app (time.Unix (time.Add (clock w) (tokenTTL auth))))
               (jwt.KeyBytes (bytes_of (models.Secret app))) with
    | (tokenString, None) => Return (tokenString, None)
    | (_, Some err) => Return ("", Some (fmt.Errorf_w "auth.Login" err))
    end.
Proof.
  intros Huser Hpass Happ.
  run. rewrite Huser. simpl. rewrite Hpass. simpl. rewrite Happ. simpl.
  unfold token_of. simpl.
  destruct (sign _ _) as [tokenString [err |]]; reflexivity.
Qed.

(** The in-memory saver keeps the stored hash of a name when it rejects a
    registration. *)
Lemma memstore_rejection_keeps_hash (c : unit) (name : string) (hash : bytes)
    (σ σ' : memstore.Db) (id : Z) (e : error) :
  memstore.SaveUser c name hash σ = ((id, Some e), σ') ->
  memstore.stored_hash σ' name = memstore.stored_hash σ name.
Proof.
  unfold memstore.SaveUser. intros Hsave.
  destruct (memstore.find_user name σ); inversion Hsave; subst; reflexivity.
Qed.

Lemma find_user_app (email : string) (us : list models.User) (u : models.User) :
  List.find (fun v => bool_decide (models.Name v = email)) us = None ->
  models.Name u = email ->
  List.find (fun v => bool_decide (models.Name v = email)) (us ++ [u])%list = Some u.
Proof.
  intros Hnone Hname. induction us as [| v us IH]; simpl in *.
  - rewrite bool_decide_eq_true_2 by exact Hname. reflexivity.
  - destruct (bool_decide (models.Name v = email)); [discriminate | exact (IH Hnone)].
Qed.

(** On the in-memory store, registering a name that is not there yet returns
    a fresh id and stores the hash; registering it again, with any password,
    fails with the user-exists sentinel and leaves that hash in place. *)
Lemma memstore_register_twice (email password password' : string)
    (w : World memstore.Db) :
  memstore.find_user email (store w) = None ->
  let first := register0 email password w in
  let second := register0 email password' (snd first) in
  let hash := (firstn 2 (entropy w) ++ bytes_of password)%list in
  fst first = Return (Z.of_nat (length (memstore.users (store w))) + 1, None) ∧
  memstore.stored_hash (store (snd first)) email = Some hash ∧
  fst second = Return (0, Some ErrUserExists) ∧
  memstore.stored_hash (store (snd second)) email = Some hash.
Proof.
  intros Hnew first second hash.
  assert (Hfound : memstore.find_user email (store (snd first))
                   = Some {| models.Id := Z.of_nat (length (memstore.users (store w))) + 1;
                             models.Name := email; models.PassHash := hash |}).
  { unfold first. run. unfold memstore.SaveUser. rewrite Hnew. simpl.
    unfold memstore.find_user in *. simpl. apply find_user_app; [exact Hnew | reflexivity]. }
  split_and!.
  - unfold first. run. unfold memstore.SaveUser. rewrite Hnew. reflexivity.
  - unfold memstore.stored_hash. rewrite Hfound. reflexivity.
  - unfold second. run. unfold memstore.SaveUser at 1.
    destruct (snd first) as [σ c r k] eqn:Hw. simpl in *. rewrite Hfound. reflexivity.
  - unfold second. run. unfold memstore.SaveUser at 1.
    destruct (snd first) as [σ c r k] eqn:Hw. simpl in *. rewrite Hfound. simpl.
    unfold memstore.stored_hash. rewrite Hfound. reflexivity.
Qed.

(** A provider that answers a nil user with a nil error makes Login panic on
    [user.PassHash]; a nil application makes [NewToken] panic on [app.Id]. *)
Example Login_nil_user_panics :
  Login bcrypt_double.CompareHashAndPassword jwt_double.SignedString
        (with_providers nil_user_provider (appProvider auth0)) tt
        "alice@example.com" (bytes_of "pw") 7 world0
  = (Panic nil_dereference, world0).
Proof. reflexivity. Qed.

Example Login_nil_app_panics :
  Login bcrypt_double.CompareHashAndPassword jwt_double.SignedString
        (with_providers (userProvider auth0) nil_app_provider) tt
        "alice@example.com" (bytes_of "pw") 7 world0
  = (Panic nil_dereference, world0).
Proof. reflexivity. Qed.

(** A not-found that the storage layer has wrapped with its own operation
    name is still recognised, by Login and by the admin check. *)
Example Login_wrapped_not_found :
  fst (Login bcrypt_double.CompareHashAndPassword jwt_double.SignedString
         (with_providers wrapping_provider (appProvider auth0)) tt
         "alice@example.com" (bytes_of "pw") 7 world0)
  = Return ("", Some (wrapError "auth.Login: invalid appID" ErrInvalidAppID)).
Proof. reflexivity. Qed.

Example isAdmin_wrapped_not_found :
  fst (isAdmin (with_providers wrapping_provider (appProvider auth0)) tt 1 world0)
  = Return (false, Some (wrapError "auth.IsAdmin: invalid appID" ErrInvalidAppID)).
Proof. reflexivity. Qed.

(** Registration followed by a login with the same password issues a token
    for the new user, one hour ahead of the clock. *)
Example register_then_login :
  let w1 := snd (register0 "bob@example.com" "hunter2" world0) in
  fst (register0 "bob@example.com" "hunter2" world0) = Return (2, None) ∧
  fst (login0 "bob@example.com" (bytes_of "hunter2") 7 w1)
  = Return (fst (jwt_double.SignedString
                   (token_of {| models.Id := 2; models.Name := "bob@example.com";
                                models.PassHash := bytes_of "s2hunter2" |}
                             portal 1700003600)
                   (jwt.KeyBytes (bytes_of "k"))),
            None).
Proof. split; reflexivity. Qed.

(** C1. A login with an existing user, the correct password and an
    application id that the application provider resolves returns a token and
    no error.  The token is the compact serialisation, by the HMAC signer of
    the jwt library, of a token whose method is HS256 (a symmetric one) and
    whose claim set has exactly the four entries [userId], [email], [app_id]
    and [exp]: the id and the name of the resolved user, the id of the
    application, and the Unix time of the instant of issuance plus the
    configured [tokenTTL]; the signature is keyed with the bytes of the
    secret of that application. *)
Theorem Login_issues_signed_token {Σ Ctx : Type}
    (jsonMarshal : gmap string jwt.value -> bytes) (EncodeSegment : bytes -> string)
    (hmacSum : jwt.SigningMethod -> bytes -> bytes -> bytes)
    (CompareHashAndPassword : bytes -> bytes -> option error)
    (auth : Auth Σ Ctx) (ctx : Ctx) (email : string) (password : bytes) (appID : Z)
    (w : World Σ) (user : models.User) (app : models.App) (σ1 σ2 : Σ) :
  User (userProvider auth) ctx email (store w) = ((Some user, None), σ1) ->
  CompareHashAndPassword (models.PassHash user) password = None ->
  App (appProvider auth) ctx appID σ1 = ((Some app, None), σ2) ->
  let sign := jwt.SignedString jsonMarshal EncodeSegment hmacSum in
  let expiry := time.Add (clock w) (tokenTTL auth) in
  exists (tokenString : string) (claims : jwt.MapClaims),
    Login CompareHashAndPassword sign auth ctx email password appID w
      = (Return (tokenString, None), mkWorld σ2 (clock w) (entropy w) (sink w)) ∧
    sign {| jwt.Method := jwt.SigningMethodHS256;
            jwt.Header := jwt.Header (jwt.New jwt.SigningMethodHS256);
            jwt.Claims := claims |}
         (jwt.KeyBytes (bytes_of (models.Secret app))) = (tokenString, None) ∧
    jwt.symmetric jwt.SigningMethodHS256 = true ∧
    claims !! "userId" = Some (jwt.Int (models.Id user)) ∧
    claims !! "email" = Some (jwt.Str (models.Name user)) ∧
    claims !! "app_id" = Some (jwt.Int (models.AppId app)) ∧
    claims !! "exp" = Some (jwt.Int (time.Unix expiry)) ∧
    dom claims = ({[ "userId"; "email"; "app_id"; "exp" ]} : gset string) ∧
    size claims = 4%nat ∧
    time.Unix expiry * time.Second <= clock w + tokenTTL auth
      < (time.Unix expiry + 1) * time.Second.
Proof.
  intros Huser Hpass Happ sign expiry.
  eexists. eexists.
  split; [| split; [| split; [reflexivity |]]].
  - run. rewrite Huser. simpl. rewrite Hpass. simpl. rewrite Happ. simpl. reflexivity.
  - reflexivity.
  - pose proof (four_claims user app (time.Unix expiry)) as Hc. simpl in Hc.
    destruct Hc as (H1 & H2 & H3 & H4 & H5 & H6).
    split_and!; try assumption; apply (Unix_bounds expiry).
Qed.

(** C2. When the user lookup succeeds and the verification of the password
    against the stored hash fails, for whatever reason the verifier gives
    (a mismatch, a malformed hash), Login returns no token and the
    invalid-credentials sentinel wrapped with its operation name.  That error
    has the sentinel, not the verifier's error, at the bottom of its chain,
    and the whole outcome is the same for any other verifier failing with any
    other error: the caller cannot tell the causes apart. *)
Theorem Login_wrong_password_invalid_credentials {Σ Ctx : Type}
    (CompareHashAndPassword : bytes -> bytes -> option error)
    (sign : jwt.Token -> jwt.Key -> string * option error)
    (auth : Auth Σ Ctx) (ctx : Ctx) (email : string) (password : bytes) (appID : Z)
    (w : World Σ) (user : models.User) (σ1 : Σ) (reason : error) :
  User (userProvider auth) ctx email (store w) = ((Some user, None), σ1) ->
  CompareHashAndPassword (models.PassHash user) password = Some reason ->
  let failure := fmt.Errorf_w "auth.Login" ErrInvalidCredentials in
  Login CompareHashAndPassword sign auth ctx email password appID w
    = (Return ("", Some failure), mkWorld σ1 (clock w) (entropy w) (sink w)) ∧
  errors.Is failure ErrInvalidCredentials = true ∧
  errors.cause failure = ErrInvalidCredentials ∧
  (forall (verify : bytes -> bytes -> option error) (reason' : error),
      verify (models.PassHash user) password = Some reason' ->
      Login verify sign auth ctx email password appID w
        = Login CompareHashAndPassword sign auth ctx email password appID w).
Proof.
  intros Huser Hpass failure.
  assert (Hrun : forall verify reason',
             verify (models.PassHash user) password = Some reason' ->
             Login verify sign auth ctx email password appID w
               = (Return ("", Some failure), mkWorld σ1 (clock w) (entropy w) (sink w))).
  { intros verify reason' Hv. run. rewrite Huser. simpl. rewrite Hv. reflexivity. }
  split_and!.
  - exact (Hrun _ _ Hpass).
  - reflexivity.
  - reflexivity.
  - intros verify reason' Hv. rewrite (Hrun _ _ Hv), (Hrun _ _ Hpass). reflexivity.
Qed.

(** C3, as amended.  When the user lookup reports not-found, Login returns no
    token and the invalid-app-id sentinel of the service wrapped with its
    operation name.  A login that fails at the application lookup returns
    the app-not-found sentinel of the storage package instead, and the
    classification checks tell the two errors apart. *)
Theorem Login_user_not_found_invalid_app_id {Σ Ctx : Type}
    (CompareHashAndPassword : bytes -> bytes -> option error)
    (sign : jwt.Token -> jwt.Key -> string * option error)
    (auth : Auth Σ Ctx) (ctx : Ctx) (email : string) (password : bytes) (appID : Z)
    (w : World Σ) (user : option models.User) (err : error) (σ1 : Σ) :
  User (userProvider auth) ctx email (store w) = ((user, Some err), σ1) ->
  errors.Is err storage.ErrUserNotFound = true ->
  let failure := fmt.Errorf_w "auth.Login" ErrInvalidAppID in
  let app_missing := fmt.Errorf_w "auth.Login" storage.ErrAppNotFound in
  fst (Login CompareHashAndPassword sign auth ctx email password appID w)
    = Return ("", Some failure) ∧
  errors.Is failure ErrInvalidAppID = true ∧
  errors.Is failure storage.ErrAppNotFound = false ∧
  errors.Is app_missing ErrInvalidAppID = false ∧
  classification failure <> classification app_missing.
Proof.
  intros Huser Hnf failure app_missing.
  split_and!; try reflexivity.
  - run. rewrite Huser. simpl. rewrite Hnf. reflexivity.
  - discriminate.
Qed.

(** C4. Once Login has reached the application lookup, any error of that
    lookup, not-found or other, makes it return no token and the
    app-not-found sentinel wrapped with its operation name; the error of the
    lookup itself only goes to the log. *)
Theorem Login_app_lookup_failure_app_not_found {Σ Ctx : Type}
    (CompareHashAndPassword : bytes -> bytes -> option error)
    (sign : jwt.Token -> jwt.Key -> string * option error)
    (auth : Auth Σ Ctx) (ctx : Ctx) (email : string) (password : bytes) (appID : Z)
    (w : World Σ) (user : models.User) (app : option models.App) (err : error)
    (σ1 σ2 : Σ) :
  User (userProvider auth) ctx email (store w) = ((Some user, None), σ1) ->
  CompareHashAndPassword (models.PassHash user) password = None ->
  App (appProvider auth) ctx appID σ1 = ((app, Some err), σ2) ->
  let failure := fmt.Errorf_w "auth.Login" storage.ErrAppNotFound in
  let logger := slog.With (log auth) [("op", "auth.Login"); ("email", email)] in
  Login CompareHashAndPassword sign auth ctx email password appID w
    = (Return ("", Some failure),
       mkWorld σ2 (clock w) (entropy w)
         (sink w ++ [slog.emit logger slog.LevelError "failed to get app"
                       [("error", errors.Error err)]])) ∧
  errors.Is failure storage.ErrAppNotFound = true ∧
  errors.cause failure = storage.ErrAppNotFound.
Proof.
  intros Huser Hpass Happ failure logger.
  split_and!; try reflexivity.
  run. rewrite Huser. simpl. rewrite Hpass. simpl. rewrite Happ. reflexivity.
Qed.

(** C5. Once the password is hashed, RegisterNewUser calls the saver once
    and the store is left as that call left it.  If the saver reports
    "already exists", the operation returns id 0 and the bare user-exists
    sentinel of the service, and with a saver that leaves the stored hash of
    a name alone when it rejects a registration as existing, the hash stored
    for the name is still the previous one; any other error of the saver is
    returned wrapped with the operation name; on success the id the saver
    assigned is returned as it is. *)
Theorem RegisterNewUser_saver_outcomes {Σ Ctx : Type}
    (GenerateFromPassword : bytes -> bytes -> Z -> bytes * option error)
    (auth : Auth Σ Ctx) (ctx : Ctx) (email password : string)
    (w : World Σ) (passHash : bytes) (userId : Z) (err : option error) (σ1 : Σ) :
  GenerateFromPassword (entropy w) (bytes_of password) bcrypt.DefaultCost = (passHash, None) ->
  SaveUser (userSaver auth) ctx email passHash (store w) = ((userId, err), σ1) ->
  let result := RegisterNewUser GenerateFromPassword auth ctx email password w in
  store (snd result) = σ1 ∧
  (err = None -> fst result = Return (userId, None)) ∧
  (forall e, err = Some e -> errors.Is e storage.ErrUserExists = true ->
     fst result = Return (0, Some ErrUserExists) ∧
     errors.Is ErrUserExists ErrUserExists = true ∧
     forall stored : Σ -> string -> option bytes,
       (forall c name hash σ id e' σ',
          SaveUser (userSaver auth) c name hash σ = ((id, Some e'), σ') ->
          errors.Is e' storage.ErrUserExists = true ->
          stored σ' name = stored σ name) ->
       stored (store (snd result)) email = stored (store w) email) ∧
  (forall e, err = Some e -> errors.Is e storage.ErrUserExists = false ->
     fst result = Return (0, Some (fmt.Errorf_w "auth.RegisterNewUser" e))).
Proof.
  intros Hgen Hsave result.
  assert (Hstore : store (snd result) = σ1).
  { unfold result. run. rewrite Hgen; simpl; rewrite Hsave. simpl.
    destruct err as [e |]; [destruct (errors.Is e storage.ErrUserExists) |]; reflexivity. }
  split_and!.
  - exact Hstore.
  - intros ->. unfold result. run. rewrite Hgen; simpl; rewrite Hsave. reflexivity.
  - intros e -> Hexists. split_and!.
    + unfold result. run. rewrite Hgen; simpl; rewrite Hsave. simpl. rewrite Hexists. reflexivity.
    + reflexivity.
    + intros stored Hsaver. rewrite Hstore. exact (Hsaver _ _ _ _ _ _ _ Hsave Hexists).
  - intros e -> Hother. unfold result. run. rewrite Hgen; simpl; rewrite Hsave. simpl.
    rewrite Hother. reflexivity.
Qed.

(** C6. The admin check returns the flag of the user provider as it is when
    the provider succeeds; it returns [false] and the invalid-app-id
    (invalid request) sentinel, wrapped with the operation name, when the
    provider reports not-found; and [false] and the provider's error, wrapped
    with the operation name, for any other error. *)
Theorem isAdmin_outcomes {Σ Ctx : Type}
    (auth : Auth Σ Ctx) (ctx : Ctx) (userID : Z) (w : World Σ)
    (flag : bool) (err : option error) (σ1 : Σ) :
  IsAdmin (userProvider auth) ctx userID (store w) = ((flag, err), σ1) ->
  let result := fst (isAdmin auth ctx userID w) in
  (err = None -> result = Return (flag, None)) ∧
  (forall e, err = Some e -> errors.Is e storage.ErrUserNotFound = true ->
     result = Return (false, Some (fmt.Errorf_w "auth.IsAdmin" ErrInvalidAppID)) ∧
     errors.Is (fmt.Errorf_w "auth.IsAdmin" ErrInvalidAppID) ErrInvalidAppID = true) ∧
  (forall e, err = Some e -> errors.Is e storage.ErrUserNotFound = false ->
     result = Return (false, Some (fmt.Errorf_w "auth.IsAdmin" e)) ∧
     errors.Unwrap (fmt.Errorf_w "auth.IsAdmin" e) = Some e).
Proof.
  intros Hprov result. unfold result. split_and!.
  - intros ->. run. rewrite Hprov. reflexivity.
  - intros e -> Hnf. split; [| reflexivity].
    run. rewrite Hprov. simpl. rewrite Hnf. reflexivity.
  - intros e -> Hother. split; [| reflexivity].
    run. rewrite Hprov. simpl. rewrite Hother. reflexivity.
Qed.

(** C7. Every error of a collaborator or of a library that an operation does
    not classify comes back as [fmt.Errorf("%s: %w", op, err)] with the
    name of the operation: the user lookup and the signing in Login, the
    hashing and the saver in RegisterNewUser, the provider in the admin
    check.  The wrapping is transparent to [errors.Is], so classification
    against a sentinel still succeeds, and no operation ever returns an error
    without that context, except for the service's own user-exists sentinel
    in RegisterNewUser. *)
Theorem internal_errors_carry_operation_name {Σ Ctx : Type}
    (CompareHashAndPassword : bytes -> bytes -> option error)
    (GenerateFromPassword : bytes -> bytes -> Z -> bytes * option error)
    (sign : jwt.Token -> jwt.Key -> string * option error)
    (auth : Auth Σ Ctx) (ctx : Ctx) (w : World Σ) :
  let login := Login CompareHashAndPassword sign auth ctx in
  let register := RegisterNewUser GenerateFromPassword auth ctx in
  (forall email password appID user e σ1,
     User (userProvider auth) ctx email (store w) = ((user, Some e), σ1) ->
     errors.Is e storage.ErrUserNotFound = false ->
     fst (login email password appID w) = Return ("", Some (fmt.Errorf_w "auth.Login" e))) ∧
  (forall email password appID user app σ1 σ2 s e,
     User (userProvider auth) ctx email (store w) = ((Some user, None), σ1) ->
     CompareHashAndPassword (models.PassHash user) password = None ->
     App (appProvider auth) ctx appID σ1 = ((Some app, None), σ2) ->
     sign (token_of user app (time.Unix (time.Add (clock w) (tokenTTL auth))))
          (jwt.KeyBytes (bytes_of (models.Secret app))) = (s, Some e) ->
     fst (login email password appID w) = Return ("", Some (fmt.Errorf_w "auth.Login" e))) ∧
  (forall email password hash e,
     GenerateFromPassword (entropy w) (bytes_of password) bcrypt.DefaultCost = (hash, Some e) ->
     fst (register email password w)
       = Return (0, Some (fmt.Errorf_w "auth.RegisterNewUser" e))) ∧
  (forall email password hash id e σ1,
     GenerateFromPassword (entropy w) (bytes_of password) bcrypt.DefaultCost = (hash, None) ->
     SaveUser (userSaver auth) ctx email hash (store w) = ((id, Some e), σ1) ->
     errors.Is e storage.ErrUserExists = false ->
     fst (register email password w)
       = Return (0, Some (fmt.Errorf_w "auth.RegisterNewUser" e))) ∧
  (forall userID flag e σ1,
     IsAdmin (userProvider auth) ctx userID (store w) = ((flag, Some e), σ1) ->
     errors.Is e storage.ErrUserNotFound = false ->
     fst (isAdmin auth ctx userID w) = Return (false, Some (fmt.Errorf_w "auth.IsAdmin" e))) ∧
  (forall op e target,
     errors.Is (fmt.Errorf_w op e) target = errors.Is e target) ∧
  (forall email password appID v e w',
     login email password appID w = (Return (v, Some e), w') ->
     wrapped_with "auth.Login" e) ∧
  (forall email password v e w',
     register email password w = (Return (v, Some e), w') ->
     wrapped_with "auth.RegisterNewUser" e \/ e = ErrUserExists) ∧
  (forall userID v e w',
     isAdmin auth ctx userID w = (Return (v, Some e), w') ->
     wrapped_with "auth.IsAdmin" e).
Proof.
  intros login register. unfold login, register. split_and!.
  - intros email password appID user e σ1 Huser Hother.
    run. rewrite Huser. simpl. rewrite Hother. reflexivity.
  - intros email password appID user app σ1 σ2 s e Huser Hpass Happ Hsign.
    run. rewrite Huser. simpl. rewrite Hpass. simpl. rewrite Happ. simpl.
    unfold token_of in Hsign. simpl in Hsign. rewrite Hsign. reflexivity.
  - intros email password hash e Hgen. run. rewrite Hgen. reflexivity.
  - intros email password hash id e σ1 Hgen Hsave Hother.
    run. rewrite Hgen. simpl. rewrite Hsave. simpl. rewrite Hother. reflexivity.
  - intros userID flag e σ1 Hprov Hother.
    run. rewrite Hprov. simpl. rewrite Hother. reflexivity.
  - intros op e target. apply Is_Errorf_w.
  - intros email password appID v e w' H. revert H. run. intros H.
    cases; unfold wrapped_with; eauto.
  - intros email password v e w' H. revert H. run. intros H.
    cases; unfold wrapped_with; eauto.
  - intros userID v e w' H. revert H. run. intros H.
    cases; unfold wrapped_with; eauto.
Qed.

(** C8. Login exits at the first failure.  When the user lookup fails, or
    succeeds and the password verification fails, the returned value and
    error, the store and the log are the same whatever the application id,
    the application provider, the signer, the clock and the token lifetime:
    the store is as the user lookup left it, and nothing after the failing
    step is consulted. *)
Theorem Login_early_exit {Σ Ctx : Type}
    (CompareHashAndPassword : bytes -> bytes -> option error)
    (sign1 sign2 : jwt.Token -> jwt.Key -> string * option error)
    (auth1 auth2 : Auth Σ Ctx) (ctx : Ctx) (email : string) (password : bytes)
    (appID1 appID2 : Z) (σ : Σ) (clock1 clock2 : time.Time) (entropy1 entropy2 : bytes)
    (records : list slog.Record_)
    (user : option models.User) (err : option error) (σ1 : Σ) :
  log auth1 = log auth2 ->
  userProvider auth1 = userProvider auth2 ->
  User (userProvider auth1) ctx email σ = ((user, err), σ1) ->
  (is_Some err \/
   exists u reason, err = None /\ user = Some u /\
     CompareHashAndPassword (models.PassHash u) password = Some reason) ->
  let r1 := Login CompareHashAndPassword sign1 auth1 ctx email password appID1
              (mkWorld σ clock1 entropy1 records) in
  let r2 := Login CompareHashAndPassword sign2 auth2 ctx email password appID2
              (mkWorld σ clock2 entropy2 records) in
  fst r1 = fst r2 ∧
  store (snd r1) = store (snd r2) ∧
  sink (snd r1) = sink (snd r2) ∧
  store (snd r1) = σ1 ∧
  exists e, fst r1 = Return ("", Some e).
Proof.
  intros Hlog Hprov Huser Hfail r1 r2. unfold r1, r2.
  run. rewrite <- Hprov, <- Hlog, Huser. simpl.
  destruct Hfail as [[e ->] | (u & reason & -> & -> & Hpass)].
  - destruct (errors.Is e storage.ErrUserNotFound); simpl; split_and!; eauto.
  - simpl. rewrite Hpass. simpl. split_and!; eauto.
Qed.

(** C9. Whenever an operation returns an error, the value beside it is the
    zero value of its type: the empty string for Login, 0 for
    RegisterNewUser, [false] for the admin check. *)
Theorem failure_returns_zero_value {Σ Ctx : Type}
    (CompareHashAndPassword : bytes -> bytes -> option error)
    (GenerateFromPassword : bytes -> bytes -> Z -> bytes * option error)
    (sign : jwt.Token -> jwt.Key -> string * option error)
    (auth : Auth Σ Ctx) (ctx : Ctx) (w : World Σ) :
  (forall email password appID token e w',
     Login CompareHashAndPassword sign auth ctx email password appID w
       = (Return (token, Some e), w') -> token = "") ∧
  (forall email password userId e w',
     RegisterNewUser GenerateFromPassword auth ctx email password w
       = (Return (userId, Some e), w') -> userId = 0) ∧
  (forall userID flag e w',
     isAdmin auth ctx userID w = (Return (flag, Some e), w') -> flag = false).
Proof.
  split_and!.
  - intros email password appID token e w' H. revert H. run. intros H.
    cases; reflexivity.
  - intros email password userId e w' H. revert H. run. intros H.
    cases; reflexivity.
  - intros userID flag e w' H. revert H. run. intros H.
    cases; reflexivity.
Qed.

(** C10. The classified failures of the two operations have different
    shapes.  RegisterNewUser returns the user-exists sentinel itself: it
    unwraps to nothing, prints without the operation name and is wrapped with
    no operation name at all.  Login returns its invalid-app-id and
    invalid-credentials failures as the sentinel wrapped with the operation
    name: they unwrap to the sentinel and print with the prefix
    [auth.Login: ]. *)
Theorem user_exists_is_returned_unwrapped {Σ Ctx : Type}
    (CompareHashAndPassword : bytes -> bytes -> option error)
    (GenerateFromPassword : bytes -> bytes -> Z -> bytes * option error)
    (sign : jwt.Token -> jwt.Key -> string * option error)
    (auth : Auth Σ Ctx) (ctx : Ctx) (w : World Σ) :
  (forall email password hash id e σ1,
     GenerateFromPassword (entropy w) (bytes_of password) bcrypt.DefaultCost = (hash, None) ->
     SaveUser (userSaver auth) ctx email hash (store w) = ((id, Some e), σ1) ->
     errors.Is e storage.ErrUserExists = true ->
     fst (RegisterNewUser GenerateFromPassword auth ctx email password w)
       = Return (0, Some ErrUserExists)) ∧
  errors.Unwrap ErrUserExists = None ∧
  errors.Error ErrUserExists = "user already exists" ∧
  (forall op, ~ wrapped_with op ErrUserExists) ∧
  (forall email password appID user e σ1,
     User (userProvider auth) ctx email (store w) = ((user, Some e), σ1) ->
     errors.Is e storage.ErrUserNotFound = true ->
     fst (Login CompareHashAndPassword sign auth ctx email password appID w)
       = Return ("", Some (wrapError "auth.Login: invalid appID" ErrInvalidAppID))) ∧
  (forall email password appID user reason σ1,
     User (userProvider auth) ctx email (store w) = ((Some user, None), σ1) ->
     CompareHashAndPassword (models.PassHash user) password = Some reason ->
     fst (Login CompareHashAndPassword sign auth ctx email password appID w)
       = Return ("", Some (wrapError "auth.Login: invalID credentials" ErrInvalidCredentials))) ∧
  wrapped_with "auth.Login" (wrapError "auth.Login: invalid appID" ErrInvalidAppID) ∧
  wrapped_with "auth.Login" (wrapError "auth.Login: invalID credentials" ErrInvalidCredentials).
Proof.
  split_and!.
  - intros email password hash id e σ1 Hgen Hsave Hexists.
    run. rewrite Hgen. simpl. rewrite Hsave. simpl. rewrite Hexists. reflexivity.
  - reflexivity.
  - reflexivity.
  - intros op [inner H]. discriminate H.
  - intros email password appID user e σ1 Huser Hnf.
    run. rewrite Huser. simpl. rewrite Hnf. reflexivity.
  - intros email password appID user reason σ1 Huser Hpass.
    run. rewrite Huser. simpl. rewrite Hpass. reflexivity.
  - exists ErrInvalidAppID. reflexivity.
  - exists ErrInvalidCredentials. reflexivity.
Qed.

(* ===================================================================== *)
(** ** The theorems at work on the in-memory store                         *)
(* ===================================================================== *)

Lemma Login_issues_signed_token_witness :
  User (userProvider auth0) tt "alice@example.com" (store world0)
    = ((Some alice, None), db0) ∧
  bcrypt_double.CompareHashAndPassword (models.PassHash alice) (bytes_of "pw") = None ∧
  App (appProvider auth0) tt 7 db0 = ((Some portal, None), db0) ∧
  exists tokenString claims,
    login0 "alice@example.com" (bytes_of "pw") 7 world0
      = (Return (tokenString, None), world0) ∧
    jwt_double.SignedString
      {| jwt.Method := jwt.SigningMethodHS256;
         jwt.Header := jwt.Header (jwt.New jwt.SigningMethodHS256);
         jwt.Claims := claims |}
      (jwt.KeyBytes (bytes_of "k")) = (tokenString, None) ∧
    claims !! "userId" = Some (jwt.Int 1) ∧
    claims !! "email" = Some (jwt.Str "alice@example.com") ∧
    claims !! "app_id" = Some (jwt.Int 7) ∧
    claims !! "exp" = Some (jwt.Int 1700003600) ∧
    size claims = 4%nat.
Proof.
  split_and!; [reflexivity .. |].
  destruct (Login_issues_signed_token
              jwt_double.jsonMarshal jwt_double.EncodeSegment jwt_double.hmacSum
              bcrypt_double.CompareHashAndPassword auth0 tt
              "alice@example.com" (bytes_of "pw") 7 world0 alice portal db0 db0
              eq_refl eq_refl eq_refl)
    as (tokenString & claims & Hrun & Hsig & _ & Hid & Hname & Happ & Hexp & _ & Hsize & _).
  exists tokenString, claims.
  split_and!; assumption.
Defined.

Lemma Login_wrong_password_invalid_credentials_witness :
  User (userProvider auth0) tt "alice@example.com" (store world0)
    = ((Some alice, None), db0) ∧
  bcrypt_double.CompareHashAndPassword (models.PassHash alice) (bytes_of "guess")
    = Some bcrypt_double.ErrMismatchedHashAndPassword ∧
  login0 "alice@example.com" (bytes_of "guess") 7 world0
    = (Return ("", Some (wrapError "auth.Login: invalID credentials" ErrInvalidCredentials)),
       world0) ∧
  login0 "alice@example.com" (bytes_of "guess") 7 world0
    = Login (fun _ _ => Some bcrypt_double.ErrHashTooShort) jwt_double.SignedString
            auth0 tt "alice@example.com" (bytes_of "guess") 7 world0.
Proof.
  split_and!; [reflexivity .. | |].
  - exact (proj1 (Login_wrong_password_invalid_credentials
                    bcrypt_double.CompareHashAndPassword jwt_double.SignedString auth0 tt
                    "alice@example.com" (bytes_of "guess") 7 world0 alice db0
                    bcrypt_double.ErrMismatchedHashAndPassword eq_refl eq_refl)).
  - symmetry.
    exact (proj2 (proj2 (proj2 (Login_wrong_password_invalid_credentials
                    bcrypt_double.CompareHashAndPassword jwt_double.SignedString auth0 tt
                    "alice@example.com" (bytes_of "guess") 7 world0 alice db0
                    bcrypt_double.ErrMismatchedHashAndPassword eq_refl eq_refl)))
                 (fun _ _ => Some bcrypt_double.ErrHashTooShort)
                 bcrypt_double.ErrHashTooShort eq_refl).
Defined.

(** C3, as stated, fails: on the in-memory store, the login of an unknown
    user and the login of a known user for an unknown application return
    errors that the classification checks answer differently (the first is an
    [ErrInvalidAppID], the second a [storage.ErrAppNotFound]). *)
Lemma Login_user_not_found_unlike_app_missing :
  exists e1 e2,
    User (userProvider auth0) tt "bob@example.com" (store world0)
      = ((None, Some storage.ErrUserNotFound), db0) ∧
    fst (login0 "bob@example.com" (bytes_of "pw") 7 world0) = Return ("", Some e1) ∧
    App (appProvider auth0) tt 8 db0 = ((None, Some storage.ErrAppNotFound), db0) ∧
    fst (login0 "alice@example.com" (bytes_of "pw") 8 world0) = Return ("", Some e2) ∧
    errors.Is e1 ErrInvalidAppID = true ∧
    errors.Is e2 ErrInvalidAppID = false ∧
    classification e1 <> classification e2.
Proof.
  eexists. eexists. split_and!; try reflexivity.
  vm_compute. discriminate.
Qed.

Lemma Login_user_not_found_invalid_app_id_witness :
  User (userProvider auth0) tt "bob@example.com" (store world0)
    = ((None, Some storage.ErrUserNotFound), db0) ∧
  errors.Is storage.ErrUserNotFound storage.ErrUserNotFound = true ∧
  fst (login0 "bob@example.com" (bytes_of "pw") 7 world0)
    = Return ("", Some (wrapError "auth.Login: invalid appID" ErrInvalidAppID)) ∧
  classification (fmt.Errorf_w "auth.Login" ErrInvalidAppID)
    <> classification (fmt.Errorf_w "auth.Login" storage.ErrAppNotFound).
Proof.
  split_and!; [reflexivity .. | |].
  - exact (proj1 (Login_user_not_found_invalid_app_id
                    bcrypt_double.CompareHashAndPassword jwt_double.SignedString auth0 tt
                    "bob@example.com" (bytes_of "pw") 7 world0 None
                    storage.ErrUserNotFound db0 eq_refl eq_refl)).
  - exact (proj2 (proj2 (proj2 (proj2 (Login_user_not_found_invalid_app_id
                    bcrypt_double.CompareHashAndPassword jwt_double.SignedString auth0 tt
                    "bob@example.com" (bytes_of "pw") 7 world0 None
                    storage.ErrUserNotFound db0 eq_refl eq_refl))))).
Defined.

Lemma Login_app_lookup_failure_app_not_found_witness :
  User (userProvider auth0) tt "alice@example.com" (store world0)
    = ((Some alice, None), db0) ∧
  bcrypt_double.CompareHashAndPassword (models.PassHash alice) (bytes_of "pw") = None ∧
  App (appProvider auth0) tt 8 db0 = ((None, Some storage.ErrAppNotFound), db0) ∧
  fst (login0 "alice@example.com" (bytes_of "pw") 8 world0)
    = Return ("", Some (wrapError "auth.Login: app not found" storage.ErrAppNotFound)).
Proof.
  split_and!; [reflexivity .. |].
  exact (f_equal fst (proj1 (Login_app_lookup_failure_app_not_found
           bcrypt_double.CompareHashAndPassword jwt_double.SignedString auth0 tt
           "alice@example.com" (bytes_of "pw") 8 world0 alice None
           storage.ErrAppNotFound db0 db0 eq_refl eq_refl eq_refl))).
Defined.

Lemma RegisterNewUser_saver_outcomes_witness :
  bcrypt_double.GenerateFromPassword (entropy world0) (bytes_of "other") bcrypt.DefaultCost
    = (bytes_of "s2other", None) ∧
  SaveUser (userSaver auth0) tt "alice@example.com" (bytes_of "s2other") (store world0)
    = ((0, Some storage.ErrUserExists), db0) ∧
  errors.Is storage.ErrUserExists storage.ErrUserExists = true ∧
  fst (register0 "alice@example.com" "other" world0) = Return (0, Some ErrUserExists) ∧
  memstore.stored_hash (store (snd (register0 "alice@example.com" "other" world0)))
      "alice@example.com"
    = Some (bytes_of "s1pw").
Proof.
  pose proof (RegisterNewUser_saver_outcomes
                bcrypt_double.GenerateFromPassword auth0 tt "alice@example.com" "other"
                world0 (bytes_of "s2other") 0 (Some storage.ErrUserExists) db0
                eq_refl eq_refl) as (_ & _ & Hexists & _).
  destruct (Hexists storage.ErrUserExists eq_refl eq_refl) as (Hres & _ & Hkeep).
  split_and!; [reflexivity .. | exact Hres |].
  rewrite (Hkeep memstore.stored_hash).
  - reflexivity.
  - intros c name hash σ id e' σ' Hsave _.
    exact (memstore_rejection_keeps_hash c name hash σ σ' id e' Hsave).
Defined.

Lemma isAdmin_outcomes_witness :
  IsAdmin (userProvider auth0) tt 1 (store world0) = ((true, None), db0) ∧
  fst (isAdmin auth0 tt 1 world0) = Return (true, None) ∧
  IsAdmin (userProvider auth0) tt 2 (store world0)
    = ((false, Some storage.ErrUserNotFound), db0) ∧
  fst (isAdmin auth0 tt 2 world0)
    = Return (false, Some (wrapError "auth.IsAdmin: invalid appID" ErrInvalidAppID)).
Proof.
  split_and!; [reflexivity | | reflexivity |].
  - exact (proj1 (isAdmin_outcomes auth0 tt 1 world0 true None db0 eq_refl) eq_refl).
  - exact (proj1 (proj1 (proj2 (isAdmin_outcomes auth0 tt 2 world0 false
                                  (Some storage.ErrUserNotFound) db0 eq_refl))
                    storage.ErrUserNotFound eq_refl eq_refl)).
Defined.

Lemma internal_errors_carry_operation_name_witness :
  jwt_double.failing
    (token_of alice portal (time.Unix (time.Add (clock world0) (tokenTTL auth0))))
    (jwt.KeyBytes (bytes_of (models.Secret portal))) = ("", Some jwt.ErrInvalidKey) ∧
  fst (Login bcrypt_double.CompareHashAndPassword jwt_double.failing auth0 tt
             "alice@example.com" (bytes_of "pw") 7 world0)
    = Return ("", Some (wrapError "auth.Login: key is invalid" jwt.ErrInvalidKey)) ∧
  wrapped_with "auth.Login" (wrapError "auth.Login: app not found" storage.ErrAppNotFound).
Proof.
  pose proof (internal_errors_carry_operation_name
                bcrypt_double.CompareHashAndPassword bcrypt_double.GenerateFromPassword
                jwt_double.failing auth0 tt world0)
    as (_ & Hsign & _ & _ & _ & _ & Hlogin & _ & _).
  split_and!.
  - reflexivity.
  - exact (Hsign "alice@example.com" (bytes_of "pw") 7 alice portal db0 db0 ""
                 jwt.ErrInvalidKey eq_refl eq_refl eq_refl eq_refl).
  - exact (Hlogin "alice@example.com" (bytes_of "pw") 8 ""
                  (wrapError "auth.Login: app not found" storage.ErrAppNotFound)
                  _ eq_refl).
Defined.

Lemma Login_early_exit_witness :
  User (userProvider auth0) tt "alice@example.com" db0 = ((Some alice, None), db0) ∧
  bcrypt_double.CompareHashAndPassword (models.PassHash alice) (bytes_of "guess")
    = Some bcrypt_double.ErrMismatchedHashAndPassword ∧
  fst (Login bcrypt_double.CompareHashAndPassword jwt_double.SignedString auth0 tt
             "alice@example.com" (bytes_of "guess") 7
             (mkWorld db0 1700000000500000000 (bytes_of "s2") []))
  = fst (Login bcrypt_double.CompareHashAndPassword jwt_double.failing
               (New (log auth0) (userSaver auth0) (userProvider auth0)
                    (Build_AppProvider
                       (fun _ _ db => ((None, Some storage.ErrAppNotFound),
                                       memstore.mkDb [] [] [])))
                    0)
               tt "alice@example.com" (bytes_of "guess") 8
               (mkWorld db0 0 [] [])).
Proof.
  split_and!; [reflexivity .. |].
  exact (proj1 (Login_early_exit
           bcrypt_double.CompareHashAndPassword jwt_double.SignedString jwt_double.failing
           auth0
           (New (log auth0) (userSaver auth0) (userProvider auth0)
                (Build_AppProvider
                   (fun _ _ db => ((None, Some storage.ErrAppNotFound),
                                   memstore.mkDb [] [] [])))
                0)
           tt "alice@example.com" (bytes_of "guess") 7 8 db0
           1700000000500000000 0 (bytes_of "s2") [] []
           (Some alice) None db0 eq_refl eq_refl eq_refl
           (or_intror (ex_intro _ alice
              (ex_intro _ bcrypt_double.ErrMismatchedHashAndPassword
                 (conj eq_refl (conj eq_refl eq_refl))))))).
Defined.

Lemma failure_returns_zero_value_witness :
  exists token userId flag e1 e2 e3 w1 w2 w3,
    login0 "bob@example.com" (bytes_of "pw") 7 world0 = (Return (token, Some e1), w1) ∧
    register0 "alice@example.com" "other" world0 = (Return (userId, Some e2), w2) ∧
    isAdmin auth0 tt 2 world0 = (Return (flag, Some e3), w3) ∧
    token = "" ∧ userId = 0 ∧ flag = false.
Proof.
  pose proof (failure_returns_zero_value
                bcrypt_double.CompareHashAndPassword bcrypt_double.GenerateFromPassword
                jwt_double.SignedString auth0 tt world0) as (Hlogin & Hregister & Hadmin).
  do 9 eexists.
  split; [reflexivity |]. split; [reflexivity |]. split; [reflexivity |].
  split_and!.
  - exact (Hlogin "bob@example.com" (bytes_of "pw") 7 _ _ _ eq_refl).
  - exact (Hregister "alice@example.com" "other" _ _ _ eq_refl).
  - exact (Hadmin 2 _ _ _ eq_refl).
Defined.

Lemma user_exists_is_returned_unwrapped_witness :
  bcrypt_double.GenerateFromPassword (entropy world0) (bytes_of "other") bcrypt.DefaultCost
    = (bytes_of "s2other", None) ∧
  SaveUser (userSaver auth0) tt "alice@example.com" (bytes_of "s2other") (store world0)
    = ((0, Some storage.ErrUserExists), db0) ∧
  fst (register0 "alice@example.com" "other" world0) = Return (0, Some ErrUserExists) ∧
  fst (login0 "alice@example.com" (bytes_of "guess") 7 world0)
    = Return ("", Some (wrapError "auth.Login: invalID credentials" ErrInvalidCredentials)).
Proof.
  pose proof (user_exists_is_returned_unwrapped
                bcrypt_double.CompareHashAndPassword bcrypt_double.GenerateFromPassword
                jwt_double.SignedString auth0 tt world0)
    as (Hreg & _ & _ & _ & _ & Hlogin & _ & _).
  split_and!; [reflexivity .. | |].
  - exact (Hreg "alice@example.com" "other" (bytes_of "s2other") 0 storage.ErrUserExists db0
                eq_refl eq_refl eq_refl).
  - exact (Hlogin "alice@example.com" (bytes_of "guess") 7 alice
                  bcrypt_double.ErrMismatchedHashAndPassword db0 eq_refl eq_refl).
Defined.

(* ===================================================================== *)
(** ** Further properties: what the password and the hash can reach        *)
(* ===================================================================== *)

Ltac no_record :=
  split_and!; [reflexivity .. |];
  exists []; split_and!; [symmetry; apply app_nil_r | simpl; lia | constructor].

Ltac one_record :=
  split_and!; [reflexivity .. |];
  eexists [_]; split_and!; [reflexivity | simpl; lia |];
  constructor; [| constructor]; do 3 eexists; split; [reflexivity | discriminate].

(** X1. Login looks at the password only through the verdict of the
    verifier: two passwords that the verifier both accepts, or both rejects,
    against the hash of the user found give the same outcome, store and log.
    The password is neither logged nor handed to a collaborator or to the
    signer. *)
Theorem Login_password_only_through_verdict {Σ Ctx : Type}
    (CompareHashAndPassword : bytes -> bytes -> option error)
    (sign : jwt.Token -> jwt.Key -> string * option error)
    (auth : Auth Σ Ctx) (ctx : Ctx) (email : string) (password password' : bytes)
    (appID : Z) (w : World Σ) :
  (forall u σ1,
     User (userProvider auth) ctx email (store w) = ((Some u, None), σ1) ->
     (is_Some (CompareHashAndPassword (models.PassHash u) password) <->
      is_Some (CompareHashAndPassword (models.PassHash u) password'))) ->
  Login CompareHashAndPassword sign auth ctx email password appID w
  = Login CompareHashAndPassword sign auth ctx email password' appID w.
Proof.
  intros Hverdict. run.
  destruct (User (userProvider auth) ctx email (store w)) as [[user err] σ1] eqn:Huser.
  simpl. destruct err as [e |]; [reflexivity |].
  destruct user as [u |]; [| reflexivity]. simpl.
  specialize (Hverdict u σ1 eq_refl).
  destruct (CompareHashAndPassword (models.PassHash u) password) as [r |] eqn:H1;
    destruct (CompareHashAndPassword (models.PassHash u) password') as [r' |] eqn:H2;
    try reflexivity.
  - exfalso. destruct (proj1 Hverdict (mk_is_Some _ _ eq_refl)) as [x Hx]. discriminate Hx.
  - exfalso. destruct (proj2 Hverdict (mk_is_Some _ _ eq_refl)) as [x Hx]. discriminate Hx.
Qed.

(** X2. RegisterNewUser looks at the password only through what the hashing
    returns: two passwords with the same hashing result give the same
    outcome, store and log.  The plaintext reaches neither the saver nor the
    logger. *)
Theorem RegisterNewUser_password_only_through_hash {Σ Ctx : Type}
    (GenerateFromPassword : bytes -> bytes -> Z -> bytes * option error)
    (auth : Auth Σ Ctx) (ctx : Ctx) (email password password' : string) (w : World Σ) :
  GenerateFromPassword (entropy w) (bytes_of password) bcrypt.DefaultCost
    = GenerateFromPassword (entropy w) (bytes_of password') bcrypt.DefaultCost ->
  RegisterNewUser GenerateFromPassword auth ctx email password w
  = RegisterNewUser GenerateFromPassword auth ctx email password' w.
Proof.
  intros Hsame. run. rewrite Hsame. reflexivity.
Qed.

(** X3. When the hashing fails, RegisterNewUser does not call the saver: the
    store is untouched, the log has the two records of the attempt and of
    the failure, and the result is id 0 with the hashing error wrapped. *)
Theorem RegisterNewUser_hash_failure_leaves_store {Σ Ctx : Type}
    (GenerateFromPassword : bytes -> bytes -> Z -> bytes * option error)
    (auth : Auth Σ Ctx) (ctx : Ctx) (email password : string) (w : World Σ)
    (hash : bytes) (e : error) :
  GenerateFromPassword (entropy w) (bytes_of password) bcrypt.DefaultCost = (hash, Some e) ->
  let logger := slog.With (log auth) [("op", "auth.RegisterNewUser"); ("email", email)] in
  RegisterNewUser GenerateFromPassword auth ctx email password w
  = (Return (0, Some (fmt.Errorf_w "auth.RegisterNewUser" e)),
     mkWorld (store w) (clock w) (entropy w)
       (sink w ++ [slog.emit logger slog.LevelInfo "registering new user" [];
                   slog.emit logger slog.LevelError "failed to generate password hash"
                     [("error", errors.Error e)]])).
Proof.
  intros Hgen logger. run. rewrite Hgen. simpl.
  rewrite <- app_assoc. reflexivity.
Qed.

(** X4. Login appends at most one record to the log and changes neither the
    clock nor the entropy.  A record it appends is a warning or an error made
    by the logger of the service with the attributes [op] and [email], and
    carries one more attribute, the text of an error under the key [error]. *)
Theorem Login_logs_at_most_one_record {Σ Ctx : Type}
    (CompareHashAndPassword : bytes -> bytes -> option error)
    (sign : jwt.Token -> jwt.Key -> string * option error)
    (auth : Auth Σ Ctx) (ctx : Ctx) (email : string) (password : bytes)
    (appID : Z) (w : World Σ) :
  let w' := snd (Login CompareHashAndPassword sign auth ctx email password appID w) in
  let logger := slog.With (log auth) [("op", "auth.Login"); ("email", email)] in
  clock w' = clock w ∧ entropy w' = entropy w ∧
  exists rs,
    sink w' = (sink w ++ rs)%list ∧ (length rs <= 1)%nat ∧
    Forall (fun r => exists lv msg text,
                r = slog.emit logger lv msg [("error", text)] ∧ lv <> slog.LevelInfo) rs.
Proof.
  intros w' logger. unfold w', logger. run.
  destruct (User (userProvider auth) ctx email (store w)) as [[user err] σ1]. simpl.
  destruct err as [e |].
  - destruct (errors.Is e storage.ErrUserNotFound); simpl; one_record.
  - destruct user as [u |]; simpl; [| no_record].
    destruct (CompareHashAndPassword (models.PassHash u) password); simpl; [no_record |].
    destruct (App (appProvider auth) ctx appID σ1) as [[app err] σ2]. simpl.
    destruct err as [e |]; simpl; [one_record |].
    destruct app as [a |]; simpl; [| no_record].
    destruct (sign _ _) as [s [e |]]; simpl; [one_record | no_record].
Qed.

(** X5. The admin check logs the check first, whatever happens next.  A
    failure of the provider adds an error record, and a not-found adds a
    warning after that error record: a missing user is logged twice.  Every
    record carries the operation name and the user id in decimal. *)
Theorem isAdmin_log_records {Σ Ctx : Type}
    (auth : Auth Σ Ctx) (ctx : Ctx) (userID : Z) (w : World Σ)
    (flag : bool) (err : option error) (σ1 : Σ) :
  IsAdmin (userProvider auth) ctx userID (store w) = ((flag, err), σ1) ->
  let logger := slog.With (log auth) [("op", "auth.IsAdmin"); ("userID", pretty userID)] in
  let checking := slog.emit logger slog.LevelInfo "checking user is admin" [] in
  let failed e := slog.emit logger slog.LevelError "failed to identify if user is admin"
                    [("error", errors.Error e)] in
  let missing e := slog.emit logger slog.LevelWarn "user not found"
                     [("error", errors.Error e)] in
  let w' := snd (isAdmin auth ctx userID w) in
  store w' = σ1 ∧
  (err = None -> sink w' = (sink w ++ [checking])%list) ∧
  (forall e, err = Some e -> errors.Is e storage.ErrUserNotFound = true ->
     sink w' = (sink w ++ [checking; failed e; missing e])%list) ∧
  (forall e, err = Some e -> errors.Is e storage.ErrUserNotFound = false ->
     sink w' = (sink w ++ [checking; failed e])%list).
Proof.
  intros Hprov logger checking failed missing w'. unfold w'.
  split_and!.
  - run. rewrite Hprov. simpl.
    destruct err as [e |]; [destruct (errors.Is e storage.ErrUserNotFound) |]; reflexivity.
  - intros ->. run. rewrite Hprov. reflexivity.
  - intros e -> Hnf. run. rewrite Hprov. simpl. rewrite Hnf. simpl.
    rewrite <- !app_assoc. reflexivity.
  - intros e -> Hother. run. rewrite Hprov. simpl. rewrite Hother. simpl.
    rewrite <- !app_assoc. reflexivity.
Qed.



(** X8. Login never uses the user saver and never draws entropy: with
    another saver and other entropy it returns the same result and leaves
    the same store and log. *)
Theorem Login_ignores_saver_and_entropy {Σ Ctx : Type}
    (CompareHashAndPassword : bytes -> bytes -> option error)
    (sign : jwt.Token -> jwt.Key -> string * option error)
    (auth : Auth Σ Ctx) (saver : UserSaver Σ Ctx) (ctx : Ctx) (email : string)
    (password : bytes) (appID : Z) (w : World Σ) (salt : bytes) :
  let auth' := New (log auth) saver (userProvider auth) (appProvider auth) (tokenTTL auth) in
  let r := Login CompareHashAndPassword sign auth ctx email password appID w in
  let r' := Login CompareHashAndPassword sign auth' ctx email password appID
              (mkWorld (store w) (clock w) salt (sink w)) in
  fst r' = fst r ∧ store (snd r') = store (snd r) ∧ sink (snd r') = sink (snd r).
Proof.
  intros auth' r r'. unfold r, r', auth'. run.
  destruct (User (userProvider auth) ctx email (store w)) as [[user err] σ1]. simpl.
  destruct err as [e |].
  { destruct (errors.Is e storage.ErrUserNotFound); simpl; split_and!; reflexivity. }
  destruct user as [u |]; simpl; [| split_and!; reflexivity].
  destruct (CompareHashAndPassword (models.PassHash u) password); simpl;
    [split_and!; reflexivity |].
  destruct (App (appProvider auth) ctx appID σ1) as [[app err] σ2]. simpl.
  destruct err as [e |]; simpl; [split_and!; reflexivity |].
  destruct app as [a |]; simpl; [| split_and!; reflexivity].
  destruct (sign _ _) as [s [e |]]; simpl; split_and!; reflexivity.
Qed.

(** X9. RegisterNewUser never consults the user provider, the application
    provider, the token lifetime or the clock: with others it returns the
    same result and leaves the same store and log. *)
Theorem RegisterNewUser_ignores_providers_and_clock {Σ Ctx : Type}
    (GenerateFromPassword : bytes -> bytes -> Z -> bytes * option error)
    (auth : Auth Σ Ctx) (users : UserProvider Σ Ctx) (apps : AppProvider Σ Ctx)
    (ttl : time.Duration) (now : time.Time)
    (ctx : Ctx) (email password : string) (w : World Σ) :
  let auth' := New (log auth) (userSaver auth) users apps ttl in
  let r := RegisterNewUser GenerateFromPassword auth ctx email password w in
  let r' := RegisterNewUser GenerateFromPassword auth' ctx email password
              (mkWorld (store w) now (entropy w) (sink w)) in
  fst r' = fst r ∧ store (snd r') = store (snd r) ∧ sink (snd r') = sink (snd r).
Proof.
  intros auth' r r'. unfold r, r', auth'. run.
  destruct (GenerateFromPassword _ _ _) as [hash [e |]]; simpl;
    [split_and!; reflexivity |].
  destruct (SaveUser _ _ _ _ _) as [[id err] σ1]. simpl.
  destruct err as [e |]; [destruct (errors.Is e storage.ErrUserExists) |];
    simpl; split_and!; reflexivity.
Qed.

(** X10. The admin check never uses the saver, the application provider, the
    token lifetime, the clock or the entropy: with others it returns the
    same result and leaves the same store and log. *)
Theorem isAdmin_ignores_saver_apps_and_clock {Σ Ctx : Type}
    (auth : Auth Σ Ctx) (saver : UserSaver Σ Ctx) (apps : AppProvider Σ Ctx)
    (ttl : time.Duration) (now : time.Time) (salt : bytes)
    (ctx : Ctx) (userID : Z) (w : World Σ) :
  let auth' := New (log auth) saver (userProvider auth) apps ttl in
  let r := isAdmin auth ctx userID w in
  let r' := isAdmin auth' ctx userID (mkWorld (store w) now salt (sink w)) in
  fst r' = fst r ∧ store (snd r') = store (snd r) ∧ sink (snd r') = sink (snd r).
Proof.
  intros auth' r r'. unfold r, r', auth'. run.
  destruct (IsAdmin _ _ _ _) as [[flag err] σ1]. simpl.
  destruct err as [e |]; [destruct (errors.Is e storage.ErrUserNotFound) |];
    simpl; split_and!; reflexivity.
Qed.

(* ===================================================================== *)
(** ** Further properties: [NewToken]                                      *)
(* ===================================================================== *)

Lemma NewToken_signs_token_of {Σ : Type}
    (sign : jwt.Token -> jwt.Key -> string * option error)
    (u : models.User) (a : models.App) (d : time.Duration) (w : World Σ) :
  NewToken sign (Some u) (Some a) d w
  = (Return (signed_by sign u a (time.Unix (time.Add (clock w) d))), w).
Proof.
  run. unfold signed_by, token_of. simpl.
  destruct (sign _ _) as [s [e |]]; reflexivity.
Qed.

(** X11. With a lifetime of [k] whole seconds, the [exp] claim that
    [NewToken] signs is the Unix second of the issuance plus [k], whatever
    the fraction of a second the clock is at. *)
Theorem NewToken_expiry_whole_seconds {Σ : Type}
    (sign : jwt.Token -> jwt.Key -> string * option error)
    (u : models.User) (a : models.App) (k : Z) (w : World Σ) :
  NewToken sign (Some u) (Some a) (k * time.Second) w
  = (Return (signed_by sign u a (time.Unix (clock w) + k)), w).
Proof.
  rewrite NewToken_signs_token_of.
  unfold time.Unix, time.Add, time.Second.
  rewrite Z.div_add by lia. reflexivity.
Qed.

(** X12. [NewToken] does not validate the lifetime.  A longer lifetime never
    gives an earlier expiry; a lifetime that is zero or negative is accepted
    and gives an expiry no later than the second of issuance, and one that is
    not negative gives an expiry no earlier than it. *)
Theorem NewToken_expiry_monotone {Σ : Type}
    (u : models.User) (a : models.App) (d1 d2 : time.Duration) (w : World Σ) :
  d1 <= d2 ->
  exists exp1 exp2,
    exp1 <= exp2 ∧
    (d1 <= 0 -> exp1 <= time.Unix (clock w)) ∧
    (0 <= d2 -> time.Unix (clock w) <= exp2) ∧
    forall sign,
      NewToken sign (Some u) (Some a) d1 w = (Return (signed_by sign u a exp1), w) ∧
      NewToken sign (Some u) (Some a) d2 w = (Return (signed_by sign u a exp2), w).
Proof.
  intros Hle.
  exists (time.Unix (time.Add (clock w) d1)), (time.Unix (time.Add (clock w) d2)).
  unfold time.Unix, time.Add, time.Second.
  split_and!.
  - apply Z.div_le_mono; lia.
  - intros Hneg. apply Z.div_le_mono; lia.
  - intros Hpos. apply Z.div_le_mono; lia.
  - intros sign. split; apply NewToken_signs_token_of.
Qed.

(** X13. [NewToken] reads the id and the name of the user and nothing else:
    two users with the same id and name, whatever their password hashes, get
    the same result.  It leaves the world as it found it. *)
Theorem NewToken_reads_id_and_name_only {Σ : Type}
    (sign : jwt.Token -> jwt.Key -> string * option error)
    (u u' : models.User) (app : option models.App) (d : time.Duration) (w : World Σ) :
  models.Id u = models.Id u' ->
  models.Name u = models.Name u' ->
  NewToken sign (Some u) app d w = NewToken sign (Some u') app d w ∧
  snd (NewToken sign (Some u) app d w) = w.
Proof.
  intros Hid Hname. run. rewrite Hid, Hname. split; [reflexivity |].
  destruct app as [a |]; simpl; [| reflexivity].
  destruct (sign _ _) as [s [e |]]; reflexivity.
Qed.

(** X14. [NewToken] panics exactly when it is handed a nil user or a nil
    application, with the nil pointer dereference; otherwise it returns. *)
Theorem NewToken_panics_iff {Σ : Type}
    (sign : jwt.Token -> jwt.Key -> string * option error)
    (user : option models.User) (app : option models.App) (d : time.Duration)
    (w : World Σ) (msg : string) :
  fst (NewToken sign user app d w) = Panic msg
  <-> msg = nil_dereference ∧ (user = None \/ app = None).
Proof.
  run. destruct user as [u |]; simpl.
  - destruct app as [a |]; simpl.
    + destruct (sign _ _) as [s [e |]]; simpl; split.
      * discriminate.
      * intros [_ [H | H]]; discriminate H.
      * discriminate.
      * intros [_ [H | H]]; discriminate H.
    + split.
      * intros H. inversion H. split; [reflexivity | right; reflexivity].
      * intros [-> _]. reflexivity.
  - split.
    + intros H. inversion H. split; [reflexivity | left; reflexivity].
    + intros [-> _]. reflexivity.
Qed.

(* ===================================================================== *)
(** ** Further properties: classification by identity, and composition     *)
(* ===================================================================== *)

Lemma Is_wrap_all (ops : list string) (e target : error) :
  errors.Is (wrap_all ops e) target = errors.Is e target.
Proof.
  induction ops as [| op ops IH]; [reflexivity |].
  change (wrap_all (op :: ops) e) with (fmt.Errorf_w op (wrap_all ops e)).
  rewrite Is_Errorf_w. exact IH.
Qed.

(** X15. The three operations recognise the sentinel of the storage layer
    under any number of wrappings by the layers in between: Login and the
    admin check answer a wrapped not-found with the invalid-app-id failure,
    RegisterNewUser answers a wrapped already-exists with the user-exists
    sentinel. *)
Theorem wrapped_sentinels_are_recognised {Σ Ctx : Type}
    (CompareHashAndPassword : bytes -> bytes -> option error)
    (GenerateFromPassword : bytes -> bytes -> Z -> bytes * option error)
    (sign : jwt.Token -> jwt.Key -> string * option error)
    (auth : Auth Σ Ctx) (ctx : Ctx) (w : World Σ) (ops : list string) :
  (forall email password appID user σ1,
     User (userProvider auth) ctx email (store w)
       = ((user, Some (wrap_all ops storage.ErrUserNotFound)), σ1) ->
     fst (Login CompareHashAndPassword sign auth ctx email password appID w)
       = Return ("", Some (fmt.Errorf_w "auth.Login" ErrInvalidAppID))) ∧
  (forall email password hash id σ1,
     GenerateFromPassword (entropy w) (bytes_of password) bcrypt.DefaultCost = (hash, None) ->
     SaveUser (userSaver auth) ctx email hash (store w)
       = ((id, Some (wrap_all ops storage.ErrUserExists)), σ1) ->
     fst (RegisterNewUser GenerateFromPassword auth ctx email password w)
       = Return (0, Some ErrUserExists)) ∧
  (forall userID flag σ1,
     IsAdmin (userProvider auth) ctx userID (store w)
       = ((flag, Some (wrap_all ops storage.ErrUserNotFound)), σ1) ->
     fst (isAdmin auth ctx userID w)
       = Return (false, Some (fmt.Errorf_w "auth.IsAdmin" ErrInvalidAppID))).
Proof.
  split_and!.
  - intros email password appID user σ1 Huser.
    run. rewrite Huser. simpl. rewrite Is_wrap_all. reflexivity.
  - intros email password hash id σ1 Hgen Hsave.
    run. rewrite Hgen. simpl. rewrite Hsave. simpl. rewrite Is_wrap_all. reflexivity.
  - intros userID flag σ1 Hprov.
    run. rewrite Hprov. simpl. rewrite Is_wrap_all. reflexivity.
Qed.


(** X17. Registration and login compose.  If the hashing succeeds, the saver
    accepts the user, the provider then answers the lookup of that email with
    a user holding the very hash that was saved, the verifier accepts the
    password against that hash and the application resolves, then a login
    with the same password on the world the registration left returns a
    token and no error: the token, signed by the HMAC signer, for the user
    the provider answered. *)
Theorem register_then_login_succeeds {Σ Ctx : Type}
    (jsonMarshal : gmap string jwt.value -> bytes) (EncodeSegment : bytes -> string)
    (hmacSum : jwt.SigningMethod -> bytes -> bytes -> bytes)
    (CompareHashAndPassword : bytes -> bytes -> option error)
    (GenerateFromPassword : bytes -> bytes -> Z -> bytes * option error)
    (auth : Auth Σ Ctx) (ctx : Ctx) (email password : string) (appID : Z)
    (w : World Σ) (hash : bytes) (id : Z) (u : models.User) (a : models.App)
    (σ1 σ2 σ3 : Σ) :
  GenerateFromPassword (entropy w) (bytes_of password) bcrypt.DefaultCost = (hash, None) ->
  SaveUser (userSaver auth) ctx email hash (store w) = ((id, None), σ1) ->
  User (userProvider auth) ctx email σ1 = ((Some u, None), σ2) ->
  models.PassHash u = hash ->
  CompareHashAndPassword hash (bytes_of password) = None ->
  App (appProvider auth) ctx appID σ2 = ((Some a, None), σ3) ->
  let sign := jwt.SignedString jsonMarshal EncodeSegment hmacSum in
  let registered := RegisterNewUser GenerateFromPassword auth ctx email password w in
  fst registered = Return (id, None) ∧
  exists tokenString,
    fst (Login CompareHashAndPassword sign auth ctx email (bytes_of password) appID
           (snd registered))
      = Return (tokenString, None) ∧
    sign (token_of u a (time.Unix (time.Add (clock w) (tokenTTL auth))))
         (jwt.KeyBytes (bytes_of (models.Secret a))) = (tokenString, None).
Proof.
  intros Hgen Hsave Huser Hhash Hpass Happ sign registered.
  assert (Hreg : registered
                 = (Return (id, None),
                    mkWorld σ1 (clock w) (entropy w)
                      (sink w ++ [slog.emit
                         (slog.With (log auth)
                            [("op", "auth.RegisterNewUser"); ("email", email)])
                         slog.LevelInfo "registering new user" []])%list)).
  { unfold registered. run. rewrite Hgen. simpl. rewrite Hsave. reflexivity. }
  rewrite Hreg. simpl. split; [reflexivity |].
  eexists. split.
  - run. rewrite Huser. simpl. rewrite Hhash, Hpass. simpl. rewrite Happ. simpl.
    reflexivity.
  - reflexivity.
Qed.

(* ===================================================================== *)
(** ** The further properties at work on the in-memory store               *)
(* ===================================================================== *)

Lemma Login_password_only_through_verdict_witness :
  (forall u σ1,
     User (userProvider auth0) tt "alice@example.com" (store world0) = ((Some u, None), σ1) ->
     (is_Some (bcrypt_double.CompareHashAndPassword (models.PassHash u) (bytes_of "guess")) <->
      is_Some (bcrypt_double.CompareHashAndPassword (models.PassHash u) (bytes_of "other")))) ∧
  login0 "alice@example.com" (bytes_of "guess") 7 world0
  = login0 "alice@example.com" (bytes_of "other") 7 world0.
Proof.
  assert (H : forall u σ1,
     User (userProvider auth0) tt "alice@example.com" (store world0) = ((Some u, None), σ1) ->
     (is_Some (bcrypt_double.CompareHashAndPassword (models.PassHash u) (bytes_of "guess")) <->
      is_Some (bcrypt_double.CompareHashAndPassword (models.PassHash u) (bytes_of "other")))).
  { intros u σ1 Hu. inversion Hu. subst. split; intros _; eexists; reflexivity. }
  split; [exact H |].
  exact (Login_password_only_through_verdict
           bcrypt_double.CompareHashAndPassword jwt_double.SignedString auth0 tt
           "alice@example.com" (bytes_of "guess") (bytes_of "other") 7 world0 H).
Defined.

Lemma RegisterNewUser_password_only_through_hash_witness :
  let truncating := fun (salt password : bytes) (cost : Z) =>
                      (firstn 3 password, @None error) in
  truncating (entropy world0) (bytes_of "hunter2") bcrypt.DefaultCost
    = truncating (entropy world0) (bytes_of "hunted") bcrypt.DefaultCost ∧
  RegisterNewUser truncating auth0 tt "bob@example.com" "hunter2" world0
  = RegisterNewUser truncating auth0 tt "bob@example.com" "hunted" world0.
Proof.
  intros truncating. split; [reflexivity |].
  exact (RegisterNewUser_password_only_through_hash truncating auth0 tt
           "bob@example.com" "hunter2" "hunted" world0 eq_refl).
Defined.

Lemma RegisterNewUser_hash_failure_leaves_store_witness :
  let too_long := fun (salt password : bytes) (cost : Z) =>
                    (@nil Byte.byte, Some bcrypt_double.ErrHashTooShort) in
  too_long (entropy world0) (bytes_of "hunter2") bcrypt.DefaultCost
    = ([], Some bcrypt_double.ErrHashTooShort) ∧
  store (snd (RegisterNewUser too_long auth0 tt "bob@example.com" "hunter2" world0)) = db0 ∧
  length (sink (snd (RegisterNewUser too_long auth0 tt "bob@example.com" "hunter2" world0)))
    = 2%nat.
Proof.
  intros too_long.
  pose proof (RegisterNewUser_hash_failure_leaves_store too_long auth0 tt
                "bob@example.com" "hunter2" world0 [] bcrypt_double.ErrHashTooShort eq_refl)
    as H.
  simpl in H. rewrite H. split_and!; reflexivity.
Defined.

Lemma isAdmin_log_records_witness :
  IsAdmin (userProvider auth0) tt 2 (store world0)
    = ((false, Some storage.ErrUserNotFound), db0) ∧
  errors.Is storage.ErrUserNotFound storage.ErrUserNotFound = true ∧
  map slog.level (sink (snd (isAdmin auth0 tt 2 world0)))
    = [slog.LevelInfo; slog.LevelError; slog.LevelWarn] ∧
  map slog.attrs (sink (snd (isAdmin auth0 tt 2 world0)))
    = [ [("op", "auth.IsAdmin"); ("userID", "2")];
        [("op", "auth.IsAdmin"); ("userID", "2"); ("error", "user not found")];
        [("op", "auth.IsAdmin"); ("userID", "2"); ("error", "user not found")] ].
Proof.
  pose proof (proj1 (proj2 (proj2 (isAdmin_log_records auth0 tt 2 world0 false
                (Some storage.ErrUserNotFound) db0 eq_refl)))
                storage.ErrUserNotFound eq_refl eq_refl) as H.
  split_and!; [reflexivity | reflexivity | rewrite H; reflexivity | rewrite H; reflexivity].
Defined.


Lemma NewToken_expiry_monotone_witness :
  - memstore.hour <= 0 ∧
  exists exp1 exp2,
    exp1 <= exp2 ∧ exp1 <= time.Unix (clock world0) ∧ time.Unix (clock world0) <= exp2 ∧
    NewToken jwt_double.SignedString (Some alice) (Some portal) (- memstore.hour) world0
      = (Return (signed_by jwt_double.SignedString alice portal exp1), world0) ∧
    NewToken jwt_double.SignedString (Some alice) (Some portal) 0 world0
      = (Return (signed_by jwt_double.SignedString alice portal exp2), world0).
Proof.
  assert (Hhour : - memstore.hour <= 0).
  { unfold memstore.hour, time.Second. lia. }
  split; [exact Hhour |].
  destruct (NewToken_expiry_monotone (Σ := memstore.Db) alice portal (- memstore.hour) 0
              world0 Hhour)
    as (exp1 & exp2 & Hle & Hneg & Hpos & Hsign).
  exists exp1, exp2.
  split_and!.
  - exact Hle.
  - exact (Hneg Hhour).
  - apply Hpos. lia.
  - exact (proj1 (Hsign jwt_double.SignedString)).
  - exact (proj2 (Hsign jwt_double.SignedString)).
Defined.

Lemma NewToken_reads_id_and_name_only_witness :
  let alice' := {| models.Id := 1; models.Name := "alice@example.com";
                   models.PassHash := bytes_of "another hash" |} in
  models.Id alice = models.Id alice' ∧
  models.Name alice = models.Name alice' ∧
  NewToken jwt_double.SignedString (Some alice) (Some portal) memstore.hour world0
  = NewToken jwt_double.SignedString (Some alice') (Some portal) memstore.hour world0.
Proof.
  intros alice'. split_and!; [reflexivity .. |].
  exact (proj1 (NewToken_reads_id_and_name_only jwt_double.SignedString alice alice'
                  (Some portal) memstore.hour world0 eq_refl eq_refl)).
Defined.

Lemma NewToken_panics_iff_witness :
  fst (NewToken jwt_double.SignedString (Some alice) None memstore.hour world0)
  = Panic nil_dereference.
Proof.
  apply (NewToken_panics_iff (Σ := memstore.Db) jwt_double.SignedString (Some alice) None
           memstore.hour world0 nil_dereference).
  split; [reflexivity | right; reflexivity].
Defined.

Lemma wrapped_sentinels_are_recognised_witness :
  User wrapping_provider tt "alice@example.com" (store world0)
    = ((None, Some (wrap_all ["storage.sqlite.User"] storage.ErrUserNotFound)), db0) ∧
  fst (Login bcrypt_double.CompareHashAndPassword jwt_double.SignedString
         (with_providers wrapping_provider (appProvider auth0)) tt
         "alice@example.com" (bytes_of "pw") 7 world0)
  = Return ("", Some (wrapError "auth.Login: invalid appID" ErrInvalidAppID)).
Proof.
  split; [reflexivity |].
  exact (proj1 (wrapped_sentinels_are_recognised
                  bcrypt_double.CompareHashAndPassword bcrypt_double.GenerateFromPassword
                  jwt_double.SignedString
                  (with_providers wrapping_provider (appProvider auth0)) tt world0
                  ["storage.sqlite.User"])
           "alice@example.com" (bytes_of "pw") 7 None db0 eq_refl).
Defined.


Lemma register_then_login_succeeds_witness :
  bcrypt_double.GenerateFromPassword (entropy world0) (bytes_of "hunter2") bcrypt.DefaultCost
    = (bytes_of "s2hunter2", None) ∧
  SaveUser (userSaver auth0) tt "bob@example.com" (bytes_of "s2hunter2") (store world0)
    = ((2, None), db1) ∧
  User (userProvider auth0) tt "bob@example.com" db1 = ((Some bob, None), db1) ∧
  bcrypt_double.CompareHashAndPassword (bytes_of "s2hunter2") (bytes_of "hunter2") = None ∧
  App (appProvider auth0) tt 7 db1 = ((Some portal, None), db1) ∧
  fst (register0 "bob@example.com" "hunter2" world0) = Return (2, None) ∧
  exists tokenString,
    fst (login0 "bob@example.com" (bytes_of "hunter2") 7
           (snd (register0 "bob@example.com" "hunter2" world0)))
      = Return (tokenString, None) ∧
    jwt_double.SignedString (token_of bob portal 1700003600) (jwt.KeyBytes (bytes_of "k"))
      = (tokenString, None).
Proof.
  split_and!; [reflexivity .. |].
  exact (proj2 (register_then_login_succeeds
           jwt_double.jsonMarshal jwt_double.EncodeSegment jwt_double.hmacSum
           bcrypt_double.CompareHashAndPassword bcrypt_double.GenerateFromPassword
           auth0 tt "bob@example.com" "hunter2" 7 world0 (bytes_of "s2hunter2") 2
           bob portal db1 db1 db1 eq_refl eq_refl eq_refl eq_refl eq_refl eq_refl)).
Defined.
